(** * Person service (src/main.py): validation schema and CRUD views

    A shallow embedding of the Flask application of [src/main.py]: the
    marshmallow schema [PersonaSchema], the table [personas] behind the
    SQLAlchemy model [Persona], and the five views of the blueprint
    [person_bp].

    Conventions of the model:
    - a Python [str] is a [string]; each [ascii] stands for one character,
      so [String.length] is Python's [len];
    - a Python [int] is a [Z]; a [float] is a dyadic number, [nan] or an
      infinity;
    - a [dict] is a [gmap]; the query string, where order and repeated
      keys matter, is an association list;
    - a request body is the JSON value Flask has parsed into
      [request.json];
    - the functions of the libraries whose text is not part of the
      repository (parsing of numerals and ISO dates, the e-mail and URL
      syntax checks, the SQL backend's reading of literals) are the
      members of the classes [Library] and [Backend]. *)

From Stdlib Require Import ZArith String Ascii List Bool Lia.
From stdpp Require Import base option list gmap strings fin_maps sorting.

Local Open Scope string_scope.
Local Open Scope Z_scope.

(** ** Python values *)

(** [datetime.date]: ordered chronologically, that is lexicographically
    on year, month, day. *)
Record date := Date { year : Z; month : Z; day : Z }.

#[global] Instance date_eq_dec : EqDecision date.
Proof. solve_decision. Defined.

Definition date_ltb (a b : date) : bool :=
  (year a <? year b)
  || ((year a =? year b)
      && ((month a <? month b)
          || ((month a =? month b) && (day a <? day b)))).

Definition date_leb (a b : date) : bool := negb (date_ltb b a).

(** A finite float is [m * 2^e]. *)
Inductive float :=
| Fnum (m e : Z)
| Finf (negative : bool)
| Fnan.

(** What [request.json] can be. An object keeps its members as written;
    [dict_of] is the [dict] Python builds from them. *)
#[warnings="-register-all"]
Inductive json :=
| JNull
| JBool (b : bool)
| JInt (n : Z)
| JFloat (f : float)
| JStr (s : string)
| JArr (items : list json)
| JObj (members : list (string * json)).

(** A later member with the same name replaces an earlier one. *)
Definition dict_of (members : list (string * json)) : gmap string json :=
  list_to_map (reverse members).

(** Values of a loaded [dict]: what the schema's fields deserialize to. *)
Inductive value :=
| VStr (s : string)
| VInt (n : Z)
| VDate (d : date).

(** A call that returns or raises. *)
Inductive raises (E A : Type) :=
| Returns (a : A)
| Raises (e : E).
Arguments Returns {E A} a.
Arguments Raises {E A} e.

(** ** Library functions outside the repository *)

Class Library := {
  (** [int(s)] on a [str]: [None] when it raises [ValueError] *)
  int_of_str : string → option Z;
  (** [date.fromisoformat(s)]: [None] when it raises *)
  from_iso_date : string → option date;
  (** whether [validate.Email()] passes *)
  email_syntax : string → bool;
  (** whether [validate.URL()] passes *)
  url_syntax : string → bool;
}.

(** [int(f)] on a [float]: truncation towards zero. *)
Inductive int_error := ValueError | OverflowError.

Definition int_of_float (f : float) : raises int_error Z :=
  match f with
  | Fnum m e => Returns (if 0 <=? e then m * 2 ^ e else m ÷ 2 ^ (- e))
  | Finf _ => Raises OverflowError
  | Fnan => Raises ValueError
  end.

(** ** Regular expressions

    The fragment of [re] the schema uses: character ranges, literal
    characters, concatenation, alternation and repetition, matched with
    derivatives. *)
Module re.

Inductive regex :=
| Void
| Eps
| Set_ (lo hi : ascii)
| Cat (r1 r2 : regex)
| Alt (r1 r2 : regex)
| Star (r : regex).

Definition Chr (c : ascii) : regex := Set_ c c.
Definition Plus (r : regex) : regex := Cat r (Star r).
Definition Opt (r : regex) : regex := Alt Eps r.

Definition in_range (lo hi c : ascii) : bool :=
  ((N_of_ascii lo <=? N_of_ascii c) && (N_of_ascii c <=? N_of_ascii hi))%N.

Fixpoint nullable (r : regex) : bool :=
  match r with
  | Void => false
  | Eps => true
  | Set_ _ _ => false
  | Cat r1 r2 => nullable r1 && nullable r2
  | Alt r1 r2 => nullable r1 || nullable r2
  | Star _ => true
  end.

Fixpoint deriv (c : ascii) (r : regex) : regex :=
  match r with
  | Void => Void
  | Eps => Void
  | Set_ lo hi => if in_range lo hi c then Eps else Void
  | Cat r1 r2 =>
      if nullable r1 then Alt (Cat (deriv c r1) r2) (deriv c r2)
      else Cat (deriv c r1) r2
  | Alt r1 r2 => Alt (deriv c r1) (deriv c r2)
  | Star r1 => Cat (deriv c r1) (Star r1)
  end.

Fixpoint accepts (r : regex) (s : string) : bool :=
  match s with
  | EmptyString => nullable r
  | String c s' => accepts (deriv c r) s'
  end.

(** The language of a regular expression. *)
Inductive matches : regex → string → Prop :=
| matches_eps : matches Eps ""
| matches_set lo hi c : in_range lo hi c = true → matches (Set_ lo hi) (String c "")
| matches_cat r1 r2 s1 s2 :
    matches r1 s1 → matches r2 s2 → matches (Cat r1 r2) (s1 ++ s2)
| matches_alt_l r1 r2 s : matches r1 s → matches (Alt r1 r2) s
| matches_alt_r r1 r2 s : matches r2 s → matches (Alt r1 r2) s
| matches_star_nil r : matches (Star r) ""
| matches_star_cons r s1 s2 :
    matches r s1 → matches (Star r) s2 → matches (Star r) (s1 ++ s2).

Definition newline : ascii := ascii_of_nat 10.

(** [re.compile('^' r '$').match(s)] succeeds: [^] holds where [match]
    starts, and [$] holds at the end of [s] and also just before a
    newline that ends [s]. *)
Definition match_anchored (r : regex) (s : string) : bool :=
  accepts (Cat r (Opt (Chr newline))) s.

End re.

(** ** marshmallow validators

    A validator yields the messages of the [ValidationError] it raises,
    [[]] when the value passes. *)
Definition Validator (A : Type) := A → list string.

Module validate.

(** [Regexp(regex, error=...)]: [regex.match(value)] must succeed; the
    patterns of this schema are of the shape [^r$]. *)
Definition Regexp (r : re.regex) (error : string) : Validator string :=
  λ v, if re.match_anchored r v then [] else [error].

(** [Length(min=..., error=...)] *)
Definition Length (min : nat) (error : string) : Validator string :=
  λ v, if (String.length v <? min)%nat then [error] else [].

(** [OneOf(choices)], with its default message. *)
Definition OneOf (choices : list string) : Validator string :=
  λ v, if decide (v ∈ choices) then []
       else ["Must be one of: " ++ String.concat ", " choices ++ "."].

(** [Range(min=..., max=..., error=...)], bounds inclusive; [lt] is the
    order of the values compared. *)
Definition Range {A} (lt : A → A → bool) (min max : option A) (error : string)
  : Validator A :=
  λ v, if from_option (lt v) false min then [error]
       else if from_option (λ hi, lt hi v) false max then [error]
       else [].

Definition Email `{Library} : Validator string :=
  λ v, if email_syntax v then [] else ["Not a valid email address."].

Definition URL `{Library} : Validator string :=
  λ v, if url_syntax v then [] else ["Not a valid URL."].

(** [And] over a field's validators: every validator runs, and the
    messages are collected in order. *)
Definition And {A} (validators : list (Validator A)) : Validator A :=
  λ v, concat ((λ f, f v) <$> validators).

End validate.

(** ** marshmallow fields *)
Module fields.

(** A field that deserializes to Python values of type [A]. *)
Record Field (A : Type) := {
  required : bool;
  dump_only : bool;
  (** the field's own reading of the raw value: the value, or the
      message of the error it raises *)
  _deserialize : json → raises string A;
  validators : list (Validator A);
  to_value : A → value;
}.
Arguments required {A} _.
Arguments dump_only {A} _.
Arguments _deserialize {A} _ _.
Arguments validators {A} _.
Arguments to_value {A} _ _.

(** [Field.deserialize]: [raw] is [None] when the key is missing from the
    input. The result [Returns None] is marshmallow's [missing]: there
    is no [load_default], so nothing is stored for the field. *)
Definition deserialize {A} (f : Field A) (raw : option json)
  : raises (list string) (option A) :=
  match raw with
  | None =>
      if required f then Raises ["Missing data for required field."]
      else Returns None
  | Some JNull => Raises ["Field may not be null."]
  | Some v =>
      match _deserialize f v with
      | Raises e => Raises [e]
      | Returns a =>
          match validate.And (validators f) a with
          | [] => Returns (Some a)
          | errors => Raises errors
          end
      end
  end.

(** A field of strings; [invalid] is the message of the field's class
    for a value that is not a string. *)
Definition string_field (invalid : string) (required : bool)
    (validate : list (Validator string)) : Field string :=
  {| required := required; dump_only := false;
     _deserialize := λ v,
       match v with
       | JStr s => Returns s
       | _ => Raises invalid
       end;
     validators := validate; to_value := VStr |}.

Definition String (required : bool) (validate : list (Validator string))
  : Field string :=
  string_field "Not a valid string." required validate.

Definition Integer `{Library} (required dump_only : bool)
    (validate : list (Validator Z)) : Field Z :=
  {| required := required; dump_only := dump_only;
     _deserialize := λ v,
       match v with
       | JInt n => Returns n
       | JFloat f =>
           match int_of_float f with
           | Returns n => Returns n
           | Raises ValueError => Raises "Not a valid integer."
           | Raises OverflowError => Raises "Number too large."
           end
       | JStr s =>
           match int_of_str s with
           | Some n => Returns n
           | None => Raises "Not a valid integer."
           end
       | _ => Raises "Not a valid integer."
       end;
     validators := validate; to_value := VInt |}.

(** A falsy input is refused before parsing; any other input that is not
    an ISO date string makes the parser raise. *)
Definition Date `{Library} (required : bool) (validate : list (Validator date))
  : Field date :=
  {| required := required; dump_only := false;
     _deserialize := λ v,
       match v with
       | JStr s =>
           if (s =? "")%string then Raises "Not a valid date."
           else match from_iso_date s with
                | Some d => Returns d
                | None => Raises "Not a valid date."
                end
       | _ => Raises "Not a valid date."
       end;
     validators := validate; to_value := VDate |}.

(** [Email] and [URL] are subclasses of [String] with a message of
    their own for a value that is not a string, and with their syntax
    validator put in front of the declared ones. *)
Definition Email `{Library} (required : bool) : Field string :=
  string_field "Not a valid email address." required [validate.Email].

Definition URL `{Library} (required : bool) : Field string :=
  string_field "Not a valid URL." required [validate.URL].

End fields.

(** ** marshmallow schemas *)

Inductive declared :=
| Declared {A : Type} (f : fields.Field A).

Definition is_dump_only (f : declared) : bool :=
  match f with Declared f => fields.dump_only f end.

(** The messages of a [ValidationError]: field name to messages. *)
Abbreviation messages := (gmap string (list string)).
(** A loaded [dict]. *)
Abbreviation dict := (gmap string value).

Module Schema.

Record Schema := { declared_fields : list (string * declared) }.

Definition load_fields (schema : Schema) : list (string * declared) :=
  filter (λ nf, is_dump_only nf.2 = false) (declared_fields schema).

(** One turn of the loop over [load_fields]: with [partial] a missing
    key is skipped; otherwise the field's value or its errors are
    stored under the field's name. *)
Definition load_field (partial : bool) (data : gmap string json)
    (acc : dict * messages) (nf : string * declared) : dict * messages :=
  let '(name, Declared f) := nf in
  match data !! name, partial with
  | None, true => acc
  | raw, _ =>
      match fields.deserialize f raw with
      | Returns None => acc
      | Returns (Some a) => (<[name := fields.to_value f a]> acc.1, acc.2)
      | Raises errors => (acc.1, <[name := errors]> acc.2)
      end
  end.

(** Keys of the input that name no loadable field ([unknown=RAISE]). *)
Definition unknown_fields (schema : Schema) (data : gmap string json)
  : messages :=
  (λ _, ["Unknown field."])
    <$> filter (λ kv, kv.1 ∉ (load_fields schema).*1) data.

Definition deserialize_all (schema : Schema) (data : json) (partial : bool)
  : dict * messages :=
  match data with
  | JObj members =>
      let d := dict_of members in
      let '(valid, errors) :=
        foldl (load_field partial d) (∅, ∅) (load_fields schema) in
      (valid, errors ∪ unknown_fields schema d)
  | _ => (∅, {["_schema" := ["Invalid input type."]]})
  end.

(** [schema.load(data, partial=...)]: the loaded [dict], or a
    [ValidationError] with the messages of every failing field. *)
Definition load (schema : Schema) (data : json) (partial : bool)
  : raises messages dict :=
  let '(valid, errors) := deserialize_all schema data partial in
  if decide (errors = ∅) then Returns valid else Raises errors.

(** [schema.validate(data, partial=...)]: the messages alone, empty
    when the input loads. *)
Definition validate (schema : Schema) (data : json) (partial : bool)
  : messages :=
  (deserialize_all schema data partial).2.

(** What one declared field makes of the input: nothing, a value, or
    its errors. *)
Definition field_result (partial : bool) (data : gmap string json)
    (name : string) (f : declared) : raises (list string) (option value) :=
  match f with
  | Declared f =>
      match data !! name, partial with
      | None, true => Returns None
      | raw, _ =>
          match fields.deserialize f raw with
          | Returns o => Returns (fields.to_value f <$> o)
          | Raises errors => Raises errors
          end
      end
  end.

End Schema.

(** ** The schema of the application (lines 38-76) *)
Module PersonaSchema.
Section class_body.
Context `{Library}.
(** The value of [date.today()] when the class body runs, that is
    when the module is imported. *)
Variable today_at_import : date.

Definition upper : re.regex := re.Set_ "A" "Z".
Definition lower : re.regex := re.Set_ "a" "z".
Definition word : re.regex := re.Cat upper (re.Plus lower).
(** [^[A-Z][a-z]+(?: [A-Z][a-z]+)*$], without its anchors *)
Definition nombre_pattern : re.regex :=
  re.Cat word (re.Star (re.Cat (re.Chr " ") word)).

Definition id : fields.Field Z := fields.Integer false true [].

Definition nombre : fields.Field string :=
  fields.String true
    [ validate.Regexp nombre_pattern
        "El apellido debe iniciar con mayúscula y contener solo letras.";
      validate.Length 3 "El apellido debe tener al menos 3 caracteres." ].

Definition apellido : fields.Field string := fields.String true [].

Definition categoria : fields.Field string :=
  fields.String true [ validate.OneOf ["A"; "B"; "C"; "D"; "E"; "F"] ].

Definition edad : fields.Field Z :=
  fields.Integer false false
    [ validate.Range Z.ltb (Some 18) None "Debe ser mayor de edad";
      validate.Range Z.ltb None (Some 50)
        "No debe ser una persona mayor de edad" ].

Definition correo_electronico : fields.Field string := fields.Email true.

Definition url : fields.Field string := fields.URL true.

Definition fecha_nacimiento : fields.Field date :=
  fields.Date false
    [ validate.Range date_ltb None (Some today_at_import)
        "La fecha de nacimiento no puede ser futura" ].

Definition schema : Schema.Schema :=
  {| Schema.declared_fields :=
       [ ("id", Declared id);
         ("nombre", Declared nombre);
         ("apellido", Declared apellido);
         ("categoria", Declared categoria);
         ("edad", Declared edad);
         ("correo_electronico", Declared correo_electronico);
         ("url", Declared url);
         ("fecha_nacimiento", Declared fecha_nacimiento) ] |}.
End class_body.
End PersonaSchema.

(** ** The model class and its table (lines 25-35) *)
Module Persona.

(** An instance of the mapped class: every attribute can be [None]. *)
Record t := {
  id : option Z;
  nombre : option string;
  apellido : option string;
  categoria : option string;
  edad : option Z;
  correo_electronico : option string;
  url : option string;
  fecha_nacimiento : option date;
  es_activo : option bool;
}.

Definition blank : t :=
  {| id := None; nombre := None; apellido := None; categoria := None;
     edad := None; correo_electronico := None; url := None;
     fecha_nacimiento := None; es_activo := None |}.

Definition set_id (x : option Z) (p : t) : t :=
  {| id := x; nombre := nombre p; apellido := apellido p;
     categoria := categoria p; edad := edad p;
     correo_electronico := correo_electronico p; url := url p;
     fecha_nacimiento := fecha_nacimiento p; es_activo := es_activo p |}.
Definition set_nombre (x : option string) (p : t) : t :=
  {| id := id p; nombre := x; apellido := apellido p;
     categoria := categoria p; edad := edad p;
     correo_electronico := correo_electronico p; url := url p;
     fecha_nacimiento := fecha_nacimiento p; es_activo := es_activo p |}.
Definition set_apellido (x : option string) (p : t) : t :=
  {| id := id p; nombre := nombre p; apellido := x;
     categoria := categoria p; edad := edad p;
     correo_electronico := correo_electronico p; url := url p;
     fecha_nacimiento := fecha_nacimiento p; es_activo := es_activo p |}.
Definition set_categoria (x : option string) (p : t) : t :=
  {| id := id p; nombre := nombre p; apellido := apellido p;
     categoria := x; edad := edad p;
     correo_electronico := correo_electronico p; url := url p;
     fecha_nacimiento := fecha_nacimiento p; es_activo := es_activo p |}.
Definition set_edad (x : option Z) (p : t) : t :=
  {| id := id p; nombre := nombre p; apellido := apellido p;
     categoria := categoria p; edad := x;
     correo_electronico := correo_electronico p; url := url p;
     fecha_nacimiento := fecha_nacimiento p; es_activo := es_activo p |}.
Definition set_correo_electronico (x : option string) (p : t) : t :=
  {| id := id p; nombre := nombre p; apellido := apellido p;
     categoria := categoria p; edad := edad p;
     correo_electronico := x; url := url p;
     fecha_nacimiento := fecha_nacimiento p; es_activo := es_activo p |}.
Definition set_url (x : option string) (p : t) : t :=
  {| id := id p; nombre := nombre p; apellido := apellido p;
     categoria := categoria p; edad := edad p;
     correo_electronico := correo_electronico p; url := x;
     fecha_nacimiento := fecha_nacimiento p; es_activo := es_activo p |}.
Definition set_fecha_nacimiento (x : option date) (p : t) : t :=
  {| id := id p; nombre := nombre p; apellido := apellido p;
     categoria := categoria p; edad := edad p;
     correo_electronico := correo_electronico p; url := url p;
     fecha_nacimiento := x; es_activo := es_activo p |}.
Definition set_es_activo (x : option bool) (p : t) : t :=
  {| id := id p; nombre := nombre p; apellido := apellido p;
     categoria := categoria p; edad := edad p;
     correo_electronico := correo_electronico p; url := url p;
     fecha_nacimiento := fecha_nacimiento p; es_activo := x |}.

(** [setattr(persona, key, value)] for the keys and values a loaded
    [dict] can hold: the schema's loadable fields, each with a value of
    its field's type. Other combinations do not arise from [load] (see
    [load_typed]) and leave the object as it is. *)
Definition setattr (p : t) (key : string) (v : value) : t :=
  match v with
  | VStr s =>
      if (key =? "nombre")%string then set_nombre (Some s) p
      else if (key =? "apellido")%string then set_apellido (Some s) p
      else if (key =? "categoria")%string then set_categoria (Some s) p
      else if (key =? "correo_electronico")%string
           then set_correo_electronico (Some s) p
      else if (key =? "url")%string then set_url (Some s) p
      else p
  | VInt n => if (key =? "edad")%string then set_edad (Some n) p else p
  | VDate d =>
      if (key =? "fecha_nacimiento")%string
      then set_fecha_nacimiento (Some d) p
      else p
  end.

(** The keys a value of each type is stored under. *)
Definition settable (key : string) (v : value) : Prop :=
  match v with
  | VStr _ =>
      key ∈ ["nombre"; "apellido"; "categoria"; "correo_electronico"; "url"]
  | VInt _ => key = "edad"
  | VDate _ => key = "fecha_nacimiento"
  end.

(** [for key, value in data.items(): setattr(persona, key, value)] *)
Definition update (p : t) (data : dict) : t :=
  map_fold (λ key v acc, setattr acc key v) p data.

(** [Persona] called with the entries of [data] as keywords: the
    declarative constructor sets each keyword on a fresh instance. *)
Definition new (data : dict) : t := update blank data.

(** The mapped columns, by type. *)
Inductive column :=
| Integer (get : t → option Z)
| String (get : t → option string)
| Date (get : t → option date)
| Boolean (get : t → option bool).

Definition columns : list (string * column) :=
  [ ("id", Integer id);
    ("nombre", String nombre);
    ("apellido", String apellido);
    ("categoria", String categoria);
    ("edad", Integer edad);
    ("correo_electronico", String correo_electronico);
    ("url", String url);
    ("fecha_nacimiento", Date fecha_nacimiento);
    ("es_activo", Boolean es_activo) ].

(** The mapped column of that name, if there is one. *)
Definition property (key : string) : option column :=
  snd <$> find (λ nc, (nc.1 =? key)%string) columns.

(** [__tablename__ = 'personas'], an attribute of the class that is no
    column. *)
Definition __tablename__ : string := "personas".

End Persona.

#[global] Instance Persona_eq_dec : EqDecision Persona.t.
Proof. solve_decision. Defined.

(** ** The database behind the session *)

(** How the ORM and the database read text that is compared with a
    column which is not a string column: as a value of the column's
    type, as text equal to no value of that type, or not at all (the
    statement fails). *)
Inductive literal (A : Type) :=
| Denotes (a : A)
| Nothing
| Rejected.
Arguments Denotes {A} a.
Arguments Nothing {A}.
Arguments Rejected {A}.

(** Every character of [s] is in the range. *)
Fixpoint all_in (lo hi : ascii) (s : string) : bool :=
  match s with
  | EmptyString => true
  | String c s' => re.in_range lo hi c && all_in lo hi s'
  end.

Inductive exception :=
| NotFound
| InvalidRequestError (text : string)
| IntegrityError
| DataError
| TypeError.

(** What the source leaves to the ORM base class and to the database
    behind [DATABASE_URL]. *)
Class Backend := {
  int_literal : string → literal Z;
  date_literal : string → literal date;
  bool_literal : string → literal bool;
  (** the text of the [InvalidRequestError] that [filter_by] raises for
      a keyword which is no attribute of the class *)
  no_property : string → string;
  (** the attributes the class inherits, other than its columns and
      [__tablename__]: [None] when there is no attribute of the name,
      else its value when that is a [str] *)
  inherited : string → option (option string);
  (** whether a [String(120)] column refuses the value: for its
      length where the length is enforced, for a NUL character, for a
      character outside the encoding; printable ASCII of the declared
      length is stored everywhere *)
  refuses : string → bool;
  refuses_plain : ∀ s,
    (String.length s ≤ 120)%nat → all_in " " "~" s = true →
    refuses s = false;
  (** whether the key column can hold the value; an SQL INTEGER has
      32 bits at least *)
  key_fits : Z → bool;
  key_fits_int : ∀ k, 0 < k < 2 ^ 31 → key_fits k = true;
  (** the order in which a SELECT without ORDER BY answers *)
  scan : gmap Z Persona.t → list Persona.t;
  scan_rows : ∀ table, scan table ≡ₚ (map_to_list table).*2;
  (** the next key after an INSERT that failed with the given error:
      a sequence may have moved on *)
  after_failed_insert : exception → Z → Z;
  after_failed_insert_ge : ∀ e s, s ≤ after_failed_insert e s;
  (** the next key after a DELETE that left the given table: where
      keys are the highest key plus one, it may move back *)
  after_delete : gmap Z Persona.t → Z → Z;
  after_delete_ahead : ∀ table s,
    (∀ k, is_Some (table !! k) → k < s) →
    ∀ k, is_Some (table !! k) → k < after_delete table s;
}.

(** The state a request runs in: the calendar date, the rows of
    [personas] by primary key, and the key the next INSERT is given. *)
Record world := {
  today : date;
  personas : gmap Z Persona.t;
  serial : Z;
}.

Definition with_personas (table : gmap Z Persona.t) (w : world) : world :=
  {| today := today w; personas := table; serial := serial w |}.

(** The same world on another day. *)
Definition on_day (t : date) (w : world) : world :=
  {| today := t; personas := personas w; serial := serial w |}.

Definition with_serial (next : Z) (w : world) : world :=
  {| today := today w; personas := personas w; serial := next |}.

(** The rows of the table as a SELECT without ORDER BY lists them. *)
Definition rows `{Backend} (w : world) : list Persona.t := scan (personas w).

(** What a keyword of [filter_by] resolves to with [getattr] on the
    class: a mapped column, or another attribute of the class. *)
Inductive attribute :=
| Mapped (c : Persona.column)
| Plain (value : option string).

Definition entity_namespace `{Backend} (key : string) : option attribute :=
  match Persona.property key with
  | Some c => Some (Mapped c)
  | None =>
      if (key =? "__tablename__")%string
      then Some (Plain (Some Persona.__tablename__))
      else Plain <$> inherited key
  end.

(** A computation of a view: it returns or raises, and leaves a world. *)
Definition view (A : Type) : Type := world → raises exception A * world.

#[global] Instance view_ret : MRet view := λ A a w, (Returns a, w).
#[global] Instance view_bind : MBind view := λ A B f m w,
  match m w with
  | (Returns a, w') => f a w'
  | (Raises e, w') => (Raises e, w')
  end.

Module db.
Section session.
Context `{Backend}.

Definition refused (s : option string) : bool := from_option refuses false s.

Definition email_taken (w : world) (email : option string) : bool :=
  bool_decide (is_Some email)
  && existsb (λ p, bool_decide (Persona.correo_electronico p = email)) (rows w).

(** [Persona.query.get_or_404(id)] *)
Definition get_or_404 (id : Z) : view Persona.t := λ w,
  match personas w !! id with
  | Some p => (Returns p, w)
  | None => (Raises NotFound, w)
  end.

(** The session after an INSERT failed with [e] and was rolled back:
    the table is as before, the next key may not be. *)
Definition failed_insert {A} (e : exception) : view A := λ w,
  (Raises e, with_serial (after_failed_insert e (serial w)) w).

(** [db.session.add(person); db.session.commit()]: the INSERT. The
    row gets the next key, [es_activo] gets its default, and the
    range of the key, the NOT NULL constraints, the values of the
    string columns and the UNIQUE constraints are checked. The
    returned object is [person] as refreshed after the commit. *)
Definition add_commit (person : Persona.t) : view Persona.t := λ w,
  let row :=
    Persona.set_id (Some (serial w))
      (Persona.set_es_activo
         (Some (default true (Persona.es_activo person))) person) in
  if negb (key_fits (serial w))
  then failed_insert DataError w
  else if bool_decide (Persona.nombre person = None
                  ∨ Persona.apellido person = None
                  ∨ Persona.categoria person = None
                  ∨ Persona.correo_electronico person = None
                  ∨ Persona.url person = None)
  then failed_insert IntegrityError w
  else if refused (Persona.nombre person) || refused (Persona.apellido person)
          || refused (Persona.categoria person)
          || refused (Persona.correo_electronico person)
          || refused (Persona.url person)
  then failed_insert DataError w
  else if email_taken w (Persona.correo_electronico person)
          || bool_decide (is_Some (personas w !! serial w))
  then failed_insert IntegrityError w
  else (Returns row,
        {| today := today w;
           personas := <[serial w := row]> (personas w);
           serial := serial w + 1 |}).

Definition changed {A} `{EqDecision A} (get : Persona.t → A)
    (old new : Persona.t) : bool :=
  bool_decide (get new ≠ get old).

(** [db.session.commit()] after attributes of the object loaded under
    key [id] were set: the UPDATE of the columns whose value changed,
    none if nothing changed. Only changed columns can break a
    constraint; a failed UPDATE is rolled back and leaves the world as
    it was. *)
Definition commit_dirty (id : Z) (old new : Persona.t) : view Persona.t := λ w,
  if bool_decide (new = old) then (Returns new, w)
  else if (changed Persona.nombre old new && refused (Persona.nombre new))
          || (changed Persona.apellido old new && refused (Persona.apellido new))
          || (changed Persona.categoria old new && refused (Persona.categoria new))
          || (changed Persona.correo_electronico old new
              && refused (Persona.correo_electronico new))
          || (changed Persona.url old new && refused (Persona.url new))
  then (Raises DataError, w)
  else if changed Persona.correo_electronico old new
          && email_taken w (Persona.correo_electronico new)
  then (Raises IntegrityError, w)
  else (Returns new, with_personas (<[id := new]> (personas w)) w).

(** [db.session.delete(persona); db.session.commit()] for the object
    loaded under key [id]. *)
Definition delete_commit (id : Z) : view unit := λ w,
  let table := delete id (personas w) in
  (Returns (),
   {| today := today w; personas := table;
      serial := after_delete table (serial w) |}).

(** The keywords that unpacking [request.args] into a call passes:
    each key once, with the first of its values. *)
Fixpoint keywords (args : list (string * string)) : list (string * string) :=
  match args with
  | [] => []
  | (k, v) :: rest =>
      (k, v) :: filter (λ kv, kv.1 ≠ k) (keywords rest)
  end.

(** The clauses of [filter_by]: each keyword is looked up on the
    class, and the first that is no attribute of it raises. *)
Fixpoint clauses (kw : list (string * string))
  : raises exception (list (attribute * string)) :=
  match kw with
  | [] => Returns []
  | (k, v) :: rest =>
      match entity_namespace k with
      | None => Raises (InvalidRequestError (no_property k))
      | Some a =>
          match clauses rest with
          | Returns cs => Returns ((a, v) :: cs)
          | Raises e => Raises e
          end
      end
  end.

(** [Persona.query.filter_by] called with keywords [kw]: one equality
    criterion per keyword. The method's own parameter is [self], which
    no keyword can be given for. *)
Definition filter_by (kw : list (string * string))
  : raises exception (list (attribute * string)) :=
  if bool_decide ("self" ∈ kw.*1) then Raises TypeError else clauses kw.

Definition equals {A} `{EqDecision A} (l : literal A)
  : raises exception (option A → bool) :=
  match l with
  | Denotes a => Returns (λ stored, bool_decide (stored = Some a))
  | Nothing => Returns (λ _, false)
  | Rejected => Raises DataError
  end.

(** The test [column = 'text'] of the WHERE clause; a NULL equals
    nothing. *)
Definition column_equals (c : Persona.column) (text : string)
  : raises exception (Persona.t → bool) :=
  match c with
  | Persona.String get =>
      Returns (λ p, bool_decide (get p = Some text))
  | Persona.Integer get =>
      match equals (int_literal text) with
      | Returns test => Returns (test ∘ get)
      | Raises e => Raises e
      end
  | Persona.Date get =>
      match equals (date_literal text) with
      | Returns test => Returns (test ∘ get)
      | Raises e => Raises e
      end
  | Persona.Boolean get =>
      match equals (bool_literal text) with
      | Returns test => Returns (test ∘ get)
      | Raises e => Raises e
      end
  end.

(** The criterion [attribute == text]: a test of the column for a
    mapped column; for any other attribute the comparison is made in
    Python and its outcome, true or false, is the criterion. *)
Definition criterion (a : attribute) (text : string)
  : raises exception (Persona.t → bool) :=
  match a with
  | Mapped c => column_equals c text
  | Plain value => Returns (λ _, bool_decide (value = Some text))
  end.

Fixpoint where_clause (criteria : list (attribute * string))
  : raises exception (Persona.t → bool) :=
  match criteria with
  | [] => Returns (λ _, true)
  | (c, text) :: rest =>
      match criterion c text, where_clause rest with
      | Returns test, Returns tests => Returns (λ p, test p && tests p)
      | Raises e, _ => Raises e
      | _, Raises e => Raises e
      end
  end.

(** The filter read as a specification: the column named [key] holds
    a value, and it is the value the text [v] stands for. *)
Definition satisfies (p : Persona.t) (key v : string) : Prop :=
  match Persona.property key with
  | Some (Persona.String get) => get p = Some v
  | Some (Persona.Integer get) =>
      ∃ n, int_literal v = Denotes n ∧ get p = Some n
  | Some (Persona.Date get) =>
      ∃ d, date_literal v = Denotes d ∧ get p = Some d
  | Some (Persona.Boolean get) =>
      ∃ b, bool_literal v = Denotes b ∧ get p = Some b
  | None => False
  end.

(** The backend reads the text as a literal of the column's type. *)
Definition readable (key v : string) : Prop :=
  match Persona.property key with
  | Some (Persona.Integer _) => int_literal v ≠ Rejected
  | Some (Persona.Date _) => date_literal v ≠ Rejected
  | Some (Persona.Boolean _) => bool_literal v ≠ Rejected
  | _ => True
  end.

(** [query.all()]: the rows that pass every criterion. *)
Definition all (criteria : list (attribute * string))
  : view (list Persona.t) := λ w,
  match where_clause criteria with
  | Returns test => (Returns (List.filter test (rows w)), w)
  | Raises e => (Raises e, w)
  end.

End session.
End db.

(** ** Responses *)

Module HTTPStatus.
Definition OK : Z := 200.
Definition CREATED : Z := 201.
Definition NO_CONTENT : Z := 204.
Definition BAD_REQUEST : Z := 400.
Definition NOT_FOUND : Z := 404.
Definition INTERNAL_SERVER_ERROR : Z := 500.
End HTTPStatus.

Inductive body :=
| Messages (m : messages)
| Object (members : list (string * json))
| Array (items : list (list (string * json)))
| Text (s : string).

Definition response : Type := body * Z.

(** [date.isoformat()] *)
Fixpoint zero_padded (width : nat) (n : Z) : string :=
  match width with
  | O => ""
  | S w =>
      zero_padded w (n / 10)
      ++ String (ascii_of_N (Z.to_N (48 + n mod 10))) ""
  end.

Definition isoformat (d : date) : string :=
  zero_padded 4 (year d) ++ "-" ++ zero_padded 2 (month d)
  ++ "-" ++ zero_padded 2 (day d).

(** [persona_schema.dump(persona)]: the declared fields, in order; an
    attribute that is [None] is dumped as [null]. *)
Definition dump (p : Persona.t) : list (string * json) :=
  [ ("id", from_option JInt JNull (Persona.id p));
    ("nombre", from_option JStr JNull (Persona.nombre p));
    ("apellido", from_option JStr JNull (Persona.apellido p));
    ("categoria", from_option JStr JNull (Persona.categoria p));
    ("edad", from_option JInt JNull (Persona.edad p));
    ("correo_electronico",
      from_option JStr JNull (Persona.correo_electronico p));
    ("url", from_option JStr JNull (Persona.url p));
    ("fecha_nacimiento",
      from_option (JStr ∘ isoformat) JNull (Persona.fecha_nacimiento p)) ].

(** ** The views (lines 78-146) *)
Section main.
Context `{Library} `{Backend}.
(** [date.today()] as it was when the module was imported. *)
Variable today_at_import : date.

(** [persona_schema = PersonaSchema()] *)
Definition persona_schema : Schema.Schema :=
  PersonaSchema.schema today_at_import.

Definition create_person (request_json : json) : view response :=
  match Schema.load persona_schema request_json false with
  | Raises e => mret (Messages e, HTTPStatus.BAD_REQUEST)
  | Returns data =>
      let person := Persona.new data in
      person ← db.add_commit person;
      mret (Object (dump person), HTTPStatus.CREATED)
  end.

(** Only [InvalidRequestError] is caught; the response built for it
    carries no status, which makes it a 200. *)
Definition get_all_persons (request_args : list (string * string))
  : view response := λ w,
  match
    match db.filter_by (db.keywords request_args) with
    | Returns criteria => db.all criteria w
    | Raises e => (Raises e, w)
    end
  with
  | (Returns personas, w') =>
      (Returns (Array (dump <$> personas), HTTPStatus.OK), w')
  | (Raises (InvalidRequestError text), w') =>
      (Returns (Object [("message", JStr text)], HTTPStatus.OK), w')
  | (Raises e, w') => (Raises e, w')
  end.

Definition get_person_by_id (id : Z) : view response :=
  persona ← db.get_or_404 id;
  mret (Object (dump persona), HTTPStatus.OK).

Definition update_person (id : Z) (request_json : json) : view response :=
  match Schema.load persona_schema request_json true with
  | Raises e => mret (Messages e, HTTPStatus.BAD_REQUEST)
  | Returns data =>
      persona ← db.get_or_404 id;
      let updated := Persona.update persona data in
      persona ← db.commit_dirty id persona updated;
      mret (Object (dump persona), HTTPStatus.OK)
  end.

Definition delete_person (id : Z) : view response :=
  persona ← db.get_or_404 id;
  _ ← db.delete_commit id;
  mret (Text "", HTTPStatus.NO_CONTENT).

(** The blueprint's handler for 404. *)
Definition page_not_found : response :=
  (Object [("message", JStr "Persona no encontrada")], HTTPStatus.NOT_FOUND).

(** An exception no handler is registered for becomes Flask's 500;
    the text stands for the error page that Flask renders. *)
Definition internal_server_error : response :=
  (Text "Internal Server Error", HTTPStatus.INTERNAL_SERVER_ERROR).

(** What the blueprint answers for a view. *)
Definition respond (v : view response) (w : world) : response * world :=
  match v w with
  | (Returns r, w') => (r, w')
  | (Raises NotFound, w') => (page_not_found, w')
  | (Raises _, w') => (internal_server_error, w')
  end.

Inductive request :=
| POST (request_json : json)
| GET_all (request_args : list (string * string))
| GET (id : Z)
| PUT (id : Z) (request_json : json)
| DELETE (id : Z).

(** [person_bp]: the routes under [/persons]. *)
Definition person_bp (r : request) : world → response * world :=
  respond
    match r with
    | POST request_json => create_person request_json
    | GET_all request_args => get_all_persons request_args
    | GET id => get_person_by_id id
    | PUT id request_json => update_person id request_json
    | DELETE id => delete_person id
    end.

End main.

(** Importing the module runs the class body of the schema, which reads
    [date.today()] in the world of the import, and registers the
    blueprint; [app.run()] then serves requests, each in the world of
    its own time. *)
Definition app `{Library} `{Backend} (at_import : world)
  : request → world → response * world :=
  person_bp (today at_import).

(** ** An instance of the libraries, to evaluate with

    It reads plain decimal numerals and [YYYY-MM-DD] dates, takes an
    address to be [local@domain] and a URL to start with [http://] or
    [https://], and stands for a backend that refuses malformed
    literals and any text for a boolean, over-long strings and NUL
    characters, keeps keys within 32 bits, draws them from a sequence
    that a failed INSERT moves on, and lists rows by key. The theorems below hold for every instance;
    this one serves to run the model on concrete requests. *)
Module plain.

Definition digit (c : ascii) : option Z :=
  let n := Z.of_N (N_of_ascii c) in
  if (48 <=? n) && (n <=? 57) then Some (n - 48) else None.

Fixpoint digits (acc : Z) (s : string) : option Z :=
  match s with
  | EmptyString => Some acc
  | String c s' =>
      match digit c with
      | Some d => digits (10 * acc + d) s'
      | None => None
      end
  end.

Definition numeral (s : string) : option Z :=
  match s with
  | EmptyString => None
  | _ => digits 0 s
  end.

Definition decimal (s : string) : option Z :=
  match s with
  | String "-" s' => Z.opp <$> numeral s'
  | String "+" s' => numeral s'
  | _ => numeral s
  end.

Definition leap (y : Z) : bool :=
  ((y mod 4 =? 0) && negb (y mod 100 =? 0)) || (y mod 400 =? 0).

Definition days_in_month (y m : Z) : Z :=
  if m =? 2 then (if leap y then 29 else 28)
  else if (m =? 4) || (m =? 6) || (m =? 9) || (m =? 11) then 30
  else 31.

Definition iso_date (s : string) : option date :=
  if negb (String.length s =? 10)%nat then None
  else if negb ((substring 4 1 s =? "-")%string && (substring 7 1 s =? "-")%string)
  then None
  else
    match numeral (substring 0 4 s), numeral (substring 5 2 s),
          numeral (substring 8 2 s) with
    | Some y, Some m, Some d =>
        if (1 <=? y) && (1 <=? m) && (m <=? 12) && (1 <=? d)
           && (d <=? days_in_month y m)
        then Some (Date y m d) else None
    | _, _, _ => None
    end.

Definition address (s : string) : bool :=
  match index 0 "@" s with
  | Some i =>
      (0 <? i)%nat && (S i <? String.length s)%nat
      && negb (bool_decide (is_Some (index (S i) "@" s)))
  | None => false
  end.

Definition http_url (s : string) : bool :=
  (String.prefix "http://" s && (7 <? String.length s)%nat)
  || (String.prefix "https://" s && (8 <? String.length s)%nat).

(** Attributes the class has from the ORM base class: none is a
    string but the name of the class. *)
Definition class_attribute (key : string) : option (option string) :=
  if (key =? "__name__")%string then Some (Some "Persona")
  else if bool_decide (key ∈ ["metadata"; "query"; "query_class"; "registry";
                              "__table__"; "__mapper__"; "__init__"])
  then Some None
  else None.

Fixpoint has_nul (s : string) : bool :=
  match s with
  | EmptyString => false
  | String c s' => Ascii.eqb c Ascii.zero || has_nul s'
  end.

Definition varchar_refuses (s : string) : bool :=
  (120 <? String.length s)%nat || has_nul s.

Lemma varchar_refuses_plain s :
  (String.length s ≤ 120)%nat → all_in " " "~" s = true →
  varchar_refuses s = false.
Proof.
  intros Hlen Hs. unfold varchar_refuses.
  replace (120 <? String.length s)%nat with false
    by (symmetry; apply Nat.ltb_ge; lia).
  clear Hlen. simpl. induction s as [|c s IH]; [done|].
  simpl in Hs. apply andb_prop in Hs as [Hc Hs]. simpl.
  rewrite (IH Hs), orb_false_r.
  destruct (Ascii.eqb_spec c Ascii.zero) as [->|]; [done|done].
Qed.

Definition key_le (a b : Z * Persona.t) : Prop := a.1 ≤ b.1.

#[global] Instance key_le_dec : RelDecision key_le :=
  λ a b, decide (a.1 ≤ b.1).

(** The rows in the order of their keys. *)
Definition by_key (table : gmap Z Persona.t) : list Persona.t :=
  (merge_sort key_le (map_to_list table)).*2.

Lemma by_key_rows table : by_key table ≡ₚ (map_to_list table).*2.
Proof. unfold by_key. by rewrite merge_sort_Permutation. Qed.

Definition int4 (k : Z) : bool := (0 <? k) && (k <? 2 ^ 31).

Lemma int4_fits k : 0 < k < 2 ^ 31 → int4 k = true.
Proof. unfold int4. intros [??]. apply andb_true_intro. split; lia. Qed.

Definition library : Library :=
  {| int_of_str := decimal; from_iso_date := iso_date;
     email_syntax := address; url_syntax := http_url |}.

Definition backend : Backend :=
  {| int_literal := λ s, from_option Denotes Rejected (decimal s);
     date_literal := λ s, from_option Denotes Rejected (iso_date s);
     bool_literal := λ _, Rejected;
     no_property := λ k, "Entity namespace for personas has no property " ++ k;
     inherited := class_attribute;
     refuses := varchar_refuses;
     refuses_plain := varchar_refuses_plain;
     key_fits := int4;
     key_fits_int := int4_fits;
     scan := by_key;
     scan_rows := by_key_rows;
     after_failed_insert := λ _ next, next + 1;
     after_failed_insert_ge := λ _ next, Z.le_succ_diag_r next;
     after_delete := λ _ next, next;
     after_delete_ahead := λ _ _ ahead, ahead |}.

End plain.

(** ** Sample worlds and requests *)
Module sample.

Definition ana : Persona.t :=
  {| Persona.id := Some 1; Persona.nombre := Some "Ana Garcia";
     Persona.apellido := Some "Garcia"; Persona.categoria := Some "A";
     Persona.edad := Some 34;
     Persona.correo_electronico := Some "ana@x.com";
     Persona.url := Some "http://x.com";
     Persona.fecha_nacimiento := Some (Date 1990 2 28);
     Persona.es_activo := Some true |}.

Definition luis : Persona.t :=
  {| Persona.id := Some 2; Persona.nombre := Some "Luis";
     Persona.apellido := Some "Perez"; Persona.categoria := Some "B";
     Persona.edad := Some 41;
     Persona.correo_electronico := Some "luis@x.com";
     Persona.url := Some "https://luis.example";
     Persona.fecha_nacimiento := None;
     Persona.es_activo := Some true |}.

(** New Year's Day 2024, with an empty table. *)
Definition january : world :=
  {| today := Date 2024 1 1; personas := ∅; serial := 1 |}.

(** The first of June 2024, with two rows in the table. *)
Definition june : world :=
  {| today := Date 2024 6 1;
     personas := {[ 1 := ana; 2 := luis ]};
     serial := 3 |}.

(** A valid creation input but for what it may say of birth. *)
Definition born (fecha_nacimiento : string) : list (string * json) :=
  [ ("nombre", JStr "Eva Luna"); ("apellido", JStr "Luna");
    ("categoria", JStr "C"); ("correo_electronico", JStr "eva@x.com");
    ("url", JStr "http://eva.example");
    ("fecha_nacimiento", JStr fecha_nacimiento) ].

(** An input with two invalid fields. *)
Definition john : list (string * json) :=
  [ ("nombre", JStr "john"); ("apellido", JStr "Smith");
    ("categoria", JStr "A"); ("edad", JInt 17);
    ("correo_electronico", JStr "john@x.com");
    ("url", JStr "http://x.com") ].

(** A valid creation input with a new address. *)
Definition eva : list (string * json) := born "2000-05-17".

(** A valid creation input with the address of [ana]. *)
Definition ana_again : list (string * json) :=
  [ ("nombre", JStr "Ana Maria"); ("apellido", JStr "Garcia");
    ("categoria", JStr "D"); ("correo_electronico", JStr "ana@x.com");
    ("url", JStr "http://ana.example") ].

End sample.

(** ** The effects of the views, stated apart from the code

    The definitions of this part are not translations of the source;
    they say what the theorems below compare the source with. *)

(** The sparse overlay: each attribute takes the value the loaded
    [data] holds under its name, and keeps its own where it holds
    none; [id] and [es_activo] have no field in the schema. *)
Definition overlay (p : Persona.t) (data : dict) : Persona.t :=
  let str key old :=
    match data !! key with Some (VStr s) => Some s | _ => old end in
  {| Persona.id := Persona.id p;
     Persona.nombre := str "nombre" (Persona.nombre p);
     Persona.apellido := str "apellido" (Persona.apellido p);
     Persona.categoria := str "categoria" (Persona.categoria p);
     Persona.edad :=
       match data !! "edad" with
       | Some (VInt n) => Some n
       | _ => Persona.edad p
       end;
     Persona.correo_electronico :=
       str "correo_electronico" (Persona.correo_electronico p);
     Persona.url := str "url" (Persona.url p);
     Persona.fecha_nacimiento :=
       match data !! "fecha_nacimiento" with
       | Some (VDate d) => Some d
       | _ => Persona.fecha_nacimiento p
       end;
     Persona.es_activo := Persona.es_activo p |}.

(** The constraints of the table [personas]: the primary key is the
    row's [id], the columns declared [nullable=False] hold a value, the
    e-mail address is unique, and the next key is above every key in
    use. *)
Record table_ok (w : world) : Prop := {
  key_is_id : ∀ k p, personas w !! k = Some p → Persona.id p = Some k;
  not_null : ∀ k p, personas w !! k = Some p →
    is_Some (Persona.nombre p) ∧ is_Some (Persona.apellido p)
    ∧ is_Some (Persona.categoria p)
    ∧ is_Some (Persona.correo_electronico p) ∧ is_Some (Persona.url p);
  unique_email : ∀ k1 k2 p1 p2,
    personas w !! k1 = Some p1 → personas w !! k2 = Some p2 →
    Persona.correo_electronico p1 = Persona.correo_electronico p2 → k1 = k2;
  serial_ahead : ∀ k, is_Some (personas w !! k) → k < serial w;
}.

(** A row whose attributes, where set, pass the validators of the
    schema built on the day [today_at_import]. *)
Definition validated `{Library} (today_at_import : date) (p : Persona.t)
  : Prop :=
  (∀ s, Persona.nombre p = Some s →
        re.match_anchored PersonaSchema.nombre_pattern s = true
        ∧ (3 ≤ String.length s)%nat)
  ∧ (∀ c, Persona.categoria p = Some c → c ∈ ["A"; "B"; "C"; "D"; "E"; "F"])
  ∧ (∀ n, Persona.edad p = Some n → 18 ≤ n ≤ 50)
  ∧ (∀ e, Persona.correo_electronico p = Some e → email_syntax e = true)
  ∧ (∀ u, Persona.url p = Some u → url_syntax u = true)
  ∧ (∀ d, Persona.fecha_nacimiento p = Some d →
          date_leb d today_at_import = true).

(** The filter read as a mapping: the value under [key] is the first
    that the arguments give for it. *)
Definition first_value (args : list (string * string)) (key v : string)
  : Prop :=
  ∃ l1 l2, args = (l1 ++ (key, v) :: l2)%list ∧ key ∉ l1.*1.

(** One upper-case letter followed by one or more lower-case letters. *)
Definition capitalized (w : string) : bool :=
  match w with
  | String c (String c' rest) =>
      re.in_range "A" "Z" c && all_in "a" "z" (String c' rest)
  | _ => false
  end.

(** Each word with one space before it. *)
Fixpoint spaced (ws : list string) : string :=
  match ws with
  | [] => ""
  | w :: ws' => " " ++ w ++ spaced ws'
  end.

(** * Properties *)

(** ** The matcher decides the language of the expression *)
Module re_facts.
Import re.

Lemma matches_nil_nullable r s : matches r s → s = "" → nullable r = true.
Proof.
  induction 1 as [| | r1 r2 s1 s2 _ IH1 _ IH2 | r1 r2 s _ IH | r1 r2 s _ IH | |];
    intros Hs; simpl; try done.
  - destruct s1; [|done]. simpl in Hs. by rewrite IH1, IH2.
  - by rewrite IH.
  - rewrite IH by done. apply orb_true_r.
Qed.

Lemma nullable_matches_nil r : nullable r = true → matches r "".
Proof.
  induction r as [| | | r1 IH1 r2 IH2 | r1 IH1 r2 IH2 | r IH]; simpl; intros Hn;
    try done.
  - constructor.
  - apply andb_true_iff in Hn as [H1 H2].
    change "" with ("" ++ ""). constructor; auto.
  - apply orb_true_iff in Hn as [H1|H2].
    + apply matches_alt_l; auto.
    + apply matches_alt_r; auto.
  - constructor.
Qed.

Lemma matches_cons_deriv r s' :
  matches r s' → ∀ c s, s' = String c s → matches (deriv c r) s.
Proof.
  induction 1 as [| lo hi c' Hc | r1 r2 s1 s2 H1 IH1 H2 IH2 | r1 r2 s0 _ IH
                  | r1 r2 s0 _ IH | | r s1 s2 H1 IH1 H2 IH2];
    intros c s Hs; simpl; try done.
  - injection Hs as -> <-. rewrite Hc. constructor.
  - destruct s1 as [|c1 s1]; simpl in Hs.
    + rewrite (matches_nil_nullable _ _ H1 eq_refl).
      apply matches_alt_r. by apply IH2.
    + injection Hs as -> <-.
      assert (matches (Cat (deriv c r1) r2) (s1 ++ s2)) as Hcat
        by (constructor; [by apply IH1 | done]).
      destruct (nullable r1); [by apply matches_alt_l | done].
  - apply matches_alt_l. by apply IH.
  - apply matches_alt_r. by apply IH.
  - destruct s1 as [|c1 s1]; simpl in Hs.
    + by apply IH2.
    + injection Hs as -> <-. constructor; [by apply IH1 | done].
Qed.

Lemma deriv_matches_cons c r : ∀ s, matches (deriv c r) s → matches r (String c s).
Proof.
  induction r as [| | lo hi | r1 IH1 r2 IH2 | r1 IH1 r2 IH2 | r IH];
    simpl; intros s Hm.
  - inversion Hm.
  - inversion Hm.
  - destruct (in_range lo hi c) eqn:Hc; inversion Hm; subst. by constructor.
  - assert (∀ s, matches (Cat (deriv c r1) r2) s → matches (Cat r1 r2) (String c s))
      as Hleft.
    { intros s0 H0. inversion H0 as [| |? ? s1 s2 Ha Hb| | | |]; subst.
      change (String c (s1 ++ s2)) with (String c s1 ++ s2).
      constructor; auto. }
    destruct (nullable r1) eqn:Hn.
    + inversion Hm; subst; [by apply Hleft|].
      change (String c s) with ("" ++ String c s).
      constructor; [by apply nullable_matches_nil | auto].
    + by apply Hleft.
  - inversion Hm; subst.
    + apply matches_alt_l; auto.
    + apply matches_alt_r; auto.
  - inversion Hm as [| |? ? s1 s2 Ha Hb| | | |]; subst.
    change (String c (s1 ++ s2)) with (String c s1 ++ s2).
    constructor; auto.
Qed.

Lemma accepts_matches r s : accepts r s = true ↔ matches r s.
Proof.
  revert r. induction s as [|c s IH]; intros r; simpl.
  - split; [apply nullable_matches_nil | intros; by eapply matches_nil_nullable].
  - rewrite IH. split; [apply deriv_matches_cons | intros; by eapply matches_cons_deriv].
Qed.

End re_facts.

Lemma append_nil_r (s : string) : s ++ "" = s.
Proof.
  induction s as [|a s IH]; [done|].
  change (String a (s ++ "") = String a s). by rewrite IH.
Qed.

Lemma in_range_same c c' : re.in_range c c c' = true → c' = c.
Proof.
  unfold re.in_range. rewrite andb_true_iff, !N.leb_le. intros [H1 H2].
  rewrite <- (ascii_N_embedding c), <- (ascii_N_embedding c'). f_equal. lia.
Qed.

(** [$] lets one final newline through. *)
Lemma match_anchored_spec r s :
  re.match_anchored r s = true
  ↔ re.matches r s ∨ ∃ s', s = s' ++ String re.newline "" ∧ re.matches r s'.
Proof.
  unfold re.match_anchored. rewrite re_facts.accepts_matches. split.
  - intros Hm. inversion Hm as [| |? ? s1 s2 H1 H2| | | |]; subst.
    inversion H2 as [| | |? ? ? He|? ? ? Hn| |]; subst.
    + inversion He; subst. left. by rewrite append_nil_r.
    + inversion Hn as [|? ? c Hc| | | | |]; subst.
      apply in_range_same in Hc as ->. right. eauto.
  - intros [Hm | (s' & -> & Hm)].
    + rewrite <- (append_nil_r s). constructor; [done|].
      apply re.matches_alt_l. constructor.
    + constructor; [done|]. apply re.matches_alt_r. constructor.
      unfold re.in_range. by rewrite !N.leb_refl.
Qed.

(** ** Loading: what the loop over the fields stores *)
Module Schema_facts.
Import Schema.

Section fold.
Variables (partial : bool) (data : gmap string json).

Lemma load_field_result acc name f :
  load_field partial data acc (name, f) =
    match field_result partial data name f with
    | Returns None => acc
    | Returns (Some v) => (<[name := v]> acc.1, acc.2)
    | Raises errors => (acc.1, <[name := errors]> acc.2)
    end.
Proof.
  destruct f as [A f]. unfold load_field, field_result.
  destruct (data !! name) as [v|], partial; try done;
    by destruct (fields.deserialize f _) as [[?|]|].
Qed.

Lemma foldl_other fs : ∀ acc name,
  name ∉ fs.*1 →
  (foldl (load_field partial data) acc fs).1 !! name = acc.1 !! name
  ∧ (foldl (load_field partial data) acc fs).2 !! name = acc.2 !! name.
Proof.
  induction fs as [|[n f] fs IH]; intros acc name Hn; [done|].
  rewrite fmap_cons in Hn. cbn [foldl].
  apply not_elem_of_cons in Hn as [Hne Hn]. simpl in Hne.
  destruct (IH (load_field partial data acc (n, f)) name Hn) as [-> ->].
  rewrite load_field_result.
  destruct (field_result partial data n f) as [[v|]|e]; simpl;
    by rewrite ?lookup_insert_ne.
Qed.

(** What is stored under a field's name is decided by that field
    alone. *)
Lemma foldl_field fs : ∀ acc name f,
  NoDup fs.*1 → (name, f) ∈ fs →
  (foldl (load_field partial data) acc fs).1 !! name =
    match field_result partial data name f with
    | Returns (Some v) => Some v
    | _ => acc.1 !! name
    end
  ∧ (foldl (load_field partial data) acc fs).2 !! name =
    match field_result partial data name f with
    | Raises e => Some e
    | _ => acc.2 !! name
    end.
Proof.
  induction fs as [|[n g] fs IH]; intros acc name f Hnd Hin.
  - by apply elem_of_nil in Hin.
  - rewrite fmap_cons in Hnd. cbn [foldl].
    apply NoDup_cons in Hnd as [Hn Hnd]. simpl in Hn.
    apply elem_of_cons in Hin as [[= <- <-]|Hin].
    + destruct (foldl_other fs (load_field partial data acc (name, f)) name Hn)
        as [-> ->].
      rewrite load_field_result.
      destruct (field_result partial data name f) as [[v|]|e]; simpl;
        by rewrite ?lookup_insert_eq.
    + assert (n ≠ name) as Hne.
      { intros ->. apply Hn. apply list_elem_of_fmap. by exists (name, f). }
      destruct (IH (load_field partial data acc (n, g)) name f Hnd Hin)
        as [-> ->].
      rewrite load_field_result.
      destruct (field_result partial data n g) as [[v|]|e]; simpl;
        by rewrite ?lookup_insert_ne.
Qed.
End fold.
End Schema_facts.

Module Schema_lookup.
Import Schema.

Section schema.
Variable schema : Schema.
Hypothesis names_NoDup : NoDup (load_fields schema).*1.

Lemma unknown_fields_declared data name :
  name ∈ (load_fields schema).*1 → unknown_fields schema data !! name = None.
Proof.
  intros Hin. unfold unknown_fields. rewrite lookup_fmap.
  rewrite (proj2 (map_lookup_filter_None _ _ _)); [done|].
  right. intros x _ Hx. by apply Hx.
Qed.

(** The messages under a field's name are the errors of that field. *)
Lemma validate_lookup members partial name f :
  (name, f) ∈ load_fields schema →
  validate schema (JObj members) partial !! name =
    match field_result partial (dict_of members) name f with
    | Raises e => Some e
    | Returns _ => None
    end.
Proof.
  intros Hin. unfold validate, deserialize_all.
  pose proof (Schema_facts.foldl_field partial (dict_of members)
                (load_fields schema) (∅, ∅) name f names_NoDup Hin) as [_ He].
  destruct (foldl _ _ _) as [valid errors]. simpl in *.
  rewrite lookup_union_l.
  - rewrite He. destruct (field_result _ _ _ _); [|done]. apply lookup_empty.
  - apply unknown_fields_declared, list_elem_of_fmap. by exists (name, f).
Qed.

(** The loaded value under a field's name is the value of that field. *)
Lemma loaded_lookup members partial name f :
  (name, f) ∈ load_fields schema →
  (deserialize_all schema (JObj members) partial).1 !! name =
    match field_result partial (dict_of members) name f with
    | Returns o => o
    | Raises _ => None
    end.
Proof.
  intros Hin. unfold deserialize_all.
  pose proof (Schema_facts.foldl_field partial (dict_of members)
                (load_fields schema) (∅, ∅) name f names_NoDup Hin) as [Hv _].
  destruct (foldl _ _ _) as [valid errors]. simpl in *. rewrite Hv.
  destruct (field_result _ _ _ _) as [[v|]|]; try done; apply lookup_empty.
Qed.

Lemma loaded_lookup_other members partial name :
  name ∉ (load_fields schema).*1 →
  (deserialize_all schema (JObj members) partial).1 !! name = None.
Proof.
  intros Hn. unfold deserialize_all.
  pose proof (Schema_facts.foldl_other partial (dict_of members)
                (load_fields schema) (∅, ∅) name Hn) as [Hv _].
  destruct (foldl _ _ _) as [valid errors]. simpl in *. rewrite Hv.
  apply lookup_empty.
Qed.

Lemma load_validate data partial :
  load schema data partial =
    if decide (validate schema data partial = ∅)
    then Returns (deserialize_all schema data partial).1
    else Raises (validate schema data partial).
Proof.
  unfold load, validate. by destruct (deserialize_all _ _ _).
Qed.

Lemma load_raises data partial errors :
  load schema data partial = Raises errors →
  errors = validate schema data partial ∧ errors ≠ ∅.
Proof.
  rewrite load_validate. case_decide; [done|]. by intros [= <-].
Qed.

Lemma load_returns data partial valid :
  load schema data partial = Returns valid →
  validate schema data partial = ∅
  ∧ valid = (deserialize_all schema data partial).1.
Proof.
  rewrite load_validate. case_decide; [|done]. by intros [= <-].
Qed.

(** One invalid field is enough for the whole input to be refused. *)
Lemma invalid_field_raises members partial name f e :
  (name, f) ∈ load_fields schema →
  field_result partial (dict_of members) name f = Raises e →
  load schema (JObj members) partial
    = Raises (validate schema (JObj members) partial).
Proof.
  intros Hin Hr. rewrite load_validate. case_decide as Hempty; [|done].
  pose proof (validate_lookup members partial name f Hin) as Hl.
  rewrite Hr, Hempty, lookup_empty in Hl. done.
Qed.
End schema.
End Schema_lookup.

Section persona_schema.
Context `{Library} `{Backend}.
Variable today_at_import : date.
Abbreviation schema := (persona_schema today_at_import).

Lemma load_fields_persona :
  Schema.load_fields schema =
    [ ("nombre", Declared PersonaSchema.nombre);
      ("apellido", Declared PersonaSchema.apellido);
      ("categoria", Declared PersonaSchema.categoria);
      ("edad", Declared PersonaSchema.edad);
      ("correo_electronico", Declared PersonaSchema.correo_electronico);
      ("url", Declared PersonaSchema.url);
      ("fecha_nacimiento",
        Declared (PersonaSchema.fecha_nacimiento today_at_import)) ].
Proof. reflexivity. Qed.

Lemma load_fields_names :
  (Schema.load_fields schema).*1 =
    ["nombre"; "apellido"; "categoria"; "edad"; "correo_electronico";
     "url"; "fecha_nacimiento"].
Proof. reflexivity. Qed.

Lemma load_fields_NoDup : NoDup (Schema.load_fields schema).*1.
Proof. rewrite load_fields_names. by apply (bool_decide_unpack _). Qed.

Lemma field_result_full data name {A} (f : fields.Field A) :
  Schema.field_result false data name (Declared f) =
    match fields.deserialize f (data !! name) with
    | Returns o => Returns (fields.to_value f <$> o)
    | Raises e => Raises e
    end.
Proof. unfold Schema.field_result. by destruct (data !! name). Qed.

(** A body that does not load is answered with its messages and 400,
    and the world is left alone. *)
Lemma create_person_raises request_json errors w :
  Schema.load schema request_json false = Raises errors →
  person_bp today_at_import (POST request_json) w
    = ((Messages errors, HTTPStatus.BAD_REQUEST), w).
Proof.
  intros Hl. unfold person_bp, respond, create_person. by rewrite Hl.
Qed.

Lemma update_person_raises id request_json errors w :
  Schema.load schema request_json true = Raises errors →
  person_bp today_at_import (PUT id request_json) w
    = ((Messages errors, HTTPStatus.BAD_REQUEST), w).
Proof.
  intros Hl. unfold person_bp, respond, update_person. by rewrite Hl.
Qed.


(** *** Messages of single fields *)

Lemma edad_in_load_fields :
  ("edad", Declared PersonaSchema.edad) ∈ Schema.load_fields schema.
Proof. rewrite load_fields_persona. repeat constructor. Qed.

Lemma nombre_in_load_fields :
  ("nombre", Declared PersonaSchema.nombre) ∈ Schema.load_fields schema.
Proof. rewrite load_fields_persona. repeat constructor. Qed.

Lemma fecha_nacimiento_in_load_fields :
  ("fecha_nacimiento", Declared (PersonaSchema.fecha_nacimiento today_at_import))
    ∈ Schema.load_fields schema.
Proof. rewrite load_fields_persona. repeat constructor. Qed.

Lemma categoria_in_load_fields :
  ("categoria", Declared PersonaSchema.categoria) ∈ Schema.load_fields schema.
Proof. rewrite load_fields_persona. repeat constructor. Qed.

(** The two range checks of [edad] on an integer. *)
Lemma edad_deserialize n :
  fields.deserialize PersonaSchema.edad (Some (JInt n)) =
    if n <? 18 then Raises ["Debe ser mayor de edad"]
    else if 50 <? n then Raises ["No debe ser una persona mayor de edad"]
    else Returns (Some n).
Proof.
  unfold fields.deserialize. cbn.
  unfold validate.And, validate.Range. cbn.
  destruct (Z.ltb_spec n 18), (Z.ltb_spec 50 n); try done; lia.
Qed.

Lemma nombre_deserialize s :
  fields.deserialize PersonaSchema.nombre (Some (JStr s)) =
    match
      (validate.Regexp PersonaSchema.nombre_pattern
         "El apellido debe iniciar con mayúscula y contener solo letras." s
       ++ validate.Length 3 "El apellido debe tener al menos 3 caracteres." s)%list
    with
    | [] => Returns (Some s)
    | e => Raises e
    end.
Proof.
  unfold fields.deserialize. cbn -[validate.Regexp validate.Length].
  unfold validate.And. cbn -[validate.Regexp validate.Length].
  by rewrite app_nil_r.
Qed.

(** The date is compared with the date of the import. *)
Lemma fecha_nacimiento_deserialize s d :
  s ≠ "" → from_iso_date s = Some d →
  fields.deserialize (PersonaSchema.fecha_nacimiento today_at_import)
      (Some (JStr s)) =
    if date_ltb today_at_import d
    then Raises ["La fecha de nacimiento no puede ser futura"]
    else Returns (Some d).
Proof.
  intros Hs Hd. unfold fields.deserialize. cbn.
  apply String.eqb_neq in Hs as ->. rewrite Hd.
  unfold validate.And, validate.Range. cbn.
  by destruct (date_ltb today_at_import d).
Qed.

Lemma validate_field members name {A} (f : fields.Field A) :
  (name, Declared f) ∈ Schema.load_fields schema →
  Schema.validate schema (JObj members) false !! name =
    match fields.deserialize f (dict_of members !! name) with
    | Raises e => Some e
    | Returns _ => None
    end.
Proof.
  intros Hin.
  rewrite (Schema_lookup.validate_lookup _ load_fields_NoDup _ _ _ _ Hin).
  rewrite field_result_full. by destruct (fields.deserialize _ _).
Qed.

(** C3: for an integer age in a creation input, no message is stored
    for [edad] exactly when 18 <= age <= 50, and then the age is what
    is loaded; below 18 the message is the one of the minimum check,
    above 50 the one of the maximum check, and the two differ. *)
Theorem edad_accepted_iff_in_range members n :
  dict_of members !! "edad" = Some (JInt n) →
  let errors := Schema.validate schema (JObj members) false in
  (errors !! "edad" = None ↔ 18 ≤ n ≤ 50)
  ∧ (n < 18 → errors !! "edad" = Some ["Debe ser mayor de edad"])
  ∧ (50 < n →
     errors !! "edad" = Some ["No debe ser una persona mayor de edad"])
  ∧ "Debe ser mayor de edad" ≠ "No debe ser una persona mayor de edad"
  ∧ (∀ data, Schema.load schema (JObj members) false = Returns data →
             18 ≤ n ≤ 50 ∧ data !! "edad" = Some (VInt n)).
Proof.
  intros Hn errors.
  assert (errors !! "edad" =
            if n <? 18 then Some ["Debe ser mayor de edad"]
            else if 50 <? n
                 then Some ["No debe ser una persona mayor de edad"]
                 else None) as He.
  { unfold errors. rewrite (validate_field _ _ _ edad_in_load_fields).
    rewrite Hn, edad_deserialize. by destruct (n <? 18), (50 <? n). }
  assert (errors !! "edad" = None ↔ 18 ≤ n ≤ 50) as Hiff.
  { rewrite He.
    destruct (Z.ltb_spec n 18), (Z.ltb_spec 50 n); split; try done; lia. }
  split; [exact Hiff|]. split; [|split; [|split; [done|]]].
  - intros Hlt. rewrite He. by apply Z.ltb_lt in Hlt as ->.
  - intros Hgt. rewrite He, (proj2 (Z.ltb_lt 50 n) Hgt).
    destruct (Z.ltb_spec n 18); [lia|done].
  - intros data Hl.
    apply (Schema_lookup.load_returns _) in Hl as [Hempty ->].
    assert (18 ≤ n ≤ 50) as Hr.
    { apply Hiff. unfold errors. by rewrite Hempty, lookup_empty. }
    split; [done|].
    rewrite (Schema_lookup.loaded_lookup _ load_fields_NoDup _ _ _ _
               edad_in_load_fields).
    rewrite field_result_full, Hn, edad_deserialize.
    destruct (Z.ltb_spec n 18), (Z.ltb_spec 50 n); try lia. done.
Qed.

(** C4: in a creation input, no message is stored for [nombre]
    exactly when its value is a string that matches the pattern
    [^[A-Z][a-z]+(?: [A-Z][a-z]+)*$] and has at least 3 characters; for
    a string the messages are those of the pattern check followed by
    those of the length check, both of which run; ["john"] is refused
    and ["John Smith"] passes. *)
Theorem nombre_accepted_iff_pattern_and_length members :
  let errors := Schema.validate schema (JObj members) false in
  (errors !! "nombre" = None
   ↔ ∃ s, dict_of members !! "nombre" = Some (JStr s)
          ∧ re.match_anchored PersonaSchema.nombre_pattern s = true
          ∧ (3 ≤ String.length s)%nat)
  ∧ (∀ s, dict_of members !! "nombre" = Some (JStr s) →
          errors !! "nombre" =
            match
              (validate.Regexp PersonaSchema.nombre_pattern
                 "El apellido debe iniciar con mayúscula y contener solo letras." s
               ++ validate.Length 3
                    "El apellido debe tener al menos 3 caracteres." s)%list
            with
            | [] => None
            | e => Some e
            end)
  ∧ (dict_of members !! "nombre" = Some (JStr "john") →
     errors !! "nombre" =
       Some ["El apellido debe iniciar con mayúscula y contener solo letras."])
  ∧ (dict_of members !! "nombre" = Some (JStr "John Smith") →
     errors !! "nombre" = None).
Proof.
  intros errors.
  assert (∀ s, dict_of members !! "nombre" = Some (JStr s) →
            errors !! "nombre" =
              match
                (validate.Regexp PersonaSchema.nombre_pattern
                   "El apellido debe iniciar con mayúscula y contener solo letras." s
                 ++ validate.Length 3
                      "El apellido debe tener al menos 3 caracteres." s)%list
              with
              | [] => None
              | e => Some e
              end) as Hstr.
  { intros s Hs. unfold errors.
    rewrite (validate_field _ _ _ nombre_in_load_fields), Hs.
    rewrite nombre_deserialize. by destruct (_ ++ _)%list. }
  split; [|split; [exact Hstr|split]].
  - split.
    + intros Hnone.
      destruct (dict_of members !! "nombre") as [v|] eqn:Hv.
      * destruct v as [| | | |s| |];
          try (exfalso; unfold errors in Hnone;
               by rewrite (validate_field _ _ _ nombre_in_load_fields), Hv
                 in Hnone).
        exists s. split; [done|]. rewrite (Hstr s eq_refl) in Hnone.
        unfold validate.Regexp, validate.Length in Hnone.
        destruct (re.match_anchored _ s); [|done].
        by destruct (Nat.ltb_spec (String.length s) 3).
      * exfalso. unfold errors in Hnone.
        by rewrite (validate_field _ _ _ nombre_in_load_fields), Hv in Hnone.
    + intros (s & Hs & Hm & Hlen). rewrite (Hstr s Hs).
      unfold validate.Regexp, validate.Length. rewrite Hm.
      by destruct (Nat.ltb_spec (String.length s) 3); [lia|].
  - intros Hs. by rewrite (Hstr _ Hs).
  - intros Hs. by rewrite (Hstr _ Hs).
Qed.

(** *** Validation comes first *)

(** C2: when a field of a creation input is invalid, [load] raises a
    [ValidationError] whose messages hold, under its name, the messages
    of that field and of every other invalid field; the response is
    those messages with status 400 and the world, hence the table, is
    as before. *)
Theorem create_person_rejects_invalid_input
    members name {A} (f : fields.Field A) msgs w :
  (name, Declared f) ∈ Schema.load_fields schema →
  fields.deserialize f (dict_of members !! name) = Raises msgs →
  ∃ errors,
    Schema.load schema (JObj members) false = Raises errors
    ∧ errors !! name = Some msgs
    ∧ (∀ name' B (g : fields.Field B) msgs',
         (name', Declared g) ∈ Schema.load_fields schema →
         fields.deserialize g (dict_of members !! name') = Raises msgs' →
         errors !! name' = Some msgs')
    ∧ person_bp today_at_import (POST (JObj members)) w
        = ((Messages errors, HTTPStatus.BAD_REQUEST), w).
Proof.
  intros Hin Hf.
  assert (∀ name' B (g : fields.Field B) msgs',
            (name', Declared g) ∈ Schema.load_fields schema →
            fields.deserialize g (dict_of members !! name') = Raises msgs' →
            Schema.validate schema (JObj members) false !! name' = Some msgs')
    as Hall.
  { intros name' B g msgs' Hin' Hg.
    by rewrite (validate_field _ _ _ Hin'), Hg. }
  assert (Schema.load schema (JObj members) false
          = Raises (Schema.validate schema (JObj members) false)) as Hload.
  { eapply (Schema_lookup.invalid_field_raises _ load_fields_NoDup);
      [exact Hin|]. by rewrite field_result_full, Hf. }
  eexists. split; [exact Hload|]. split; [by eapply Hall|].
  split; [exact Hall|]. by apply create_person_raises.
Qed.

(** C10: an update whose body does not load is answered with the
    messages and status 400 whatever the id, present or not: the body
    is validated before the row is looked up. The world is as before. *)
Theorem update_person_validates_before_lookup id request_json errors w :
  Schema.load schema request_json true = Raises errors →
  person_bp today_at_import (PUT id request_json) w
    = ((Messages errors, HTTPStatus.BAD_REQUEST), w).
Proof. apply update_person_raises. Qed.

(** C7: an update of an id that is not in the table, with a body that
    loads, is answered with the not-found response, and the world is
    as before. *)
Theorem update_person_missing_id id request_json data w :
  personas w !! id = None →
  Schema.load schema request_json true = Returns data →
  person_bp today_at_import (PUT id request_json) w
    = ((Object [("message", JStr "Persona no encontrada")],
        HTTPStatus.NOT_FOUND), w).
Proof.
  intros Hid Hl. unfold person_bp, respond, update_person. rewrite Hl.
  unfold mbind, view_bind, db.get_or_404. by rewrite Hid.
Qed.

(** *** Deleting *)

(** C6: deleting an id that is not in the table is answered with 404
    and the fixed message, and changes nothing; deleting an id that is
    there is answered with 204; and whatever the first delete of an id
    did, a second delete of the same id is answered with 404. *)
Theorem delete_person_not_found id w :
  (personas w !! id = None →
   person_bp today_at_import (DELETE id) w
     = ((Object [("message", JStr "Persona no encontrada")],
         HTTPStatus.NOT_FOUND), w))
  ∧ (is_Some (personas w !! id) →
     (person_bp today_at_import (DELETE id) w).1
       = (Text "", HTTPStatus.NO_CONTENT))
  ∧ (let w' := (person_bp today_at_import (DELETE id) w).2 in
     personas w' !! id = None
     ∧ person_bp today_at_import (DELETE id) w'
         = ((Object [("message", JStr "Persona no encontrada")],
             HTTPStatus.NOT_FOUND), w')).
Proof.
  assert (∀ w0, personas w0 !! id = None →
            person_bp today_at_import (DELETE id) w0
              = ((Object [("message", JStr "Persona no encontrada")],
                  HTTPStatus.NOT_FOUND), w0)) as Hmissing.
  { intros w0 Hid. unfold person_bp, respond, delete_person.
    unfold mbind, view_bind, db.get_or_404. by rewrite Hid. }
  assert (personas (person_bp today_at_import (DELETE id) w).2 !! id = None)
    as Hgone.
  { unfold person_bp, respond, delete_person.
    unfold mbind, view_bind, db.get_or_404.
    destruct (personas w !! id) eqn:Hid; simpl; [|done].
    apply lookup_delete_eq. }
  split; [apply Hmissing|]. split.
  - intros [p Hid]. unfold person_bp, respond, delete_person.
    unfold mbind, view_bind, db.get_or_404. by rewrite Hid.
  - split; [exact Hgone | by apply Hmissing].
Qed.

(** *** Updating one field *)

Lemma load_field_absent data acc name f :
  data !! name = None → Schema.load_field true data acc (name, f) = acc.
Proof. intros Hn. destruct f. unfold Schema.load_field. by rewrite Hn. Qed.

(** A partial input with the key [categoria] alone. *)
Lemma load_categoria_only members v :
  dict_of members = {["categoria" := v]} →
  Schema.load schema (JObj members) true =
    match fields.deserialize PersonaSchema.categoria (Some v) with
    | Returns (Some c) => Returns {["categoria" := VStr c]}
    | Returns None => Returns ∅
    | Raises e => Raises {["categoria" := e]}
    end.
Proof.
  intros Hd. unfold Schema.load, Schema.deserialize_all.
  rewrite Hd, load_fields_persona.
  assert (Schema.unknown_fields schema {["categoria" := v]} = ∅) as ->.
  { unfold Schema.unknown_fields. rewrite map_filter_singleton_False.
    - apply fmap_empty.
    - intros Hn. apply Hn. rewrite load_fields_names. simpl.
      repeat constructor. }
  cbn [foldl].
  rewrite (load_field_absent _ _ "fecha_nacimiento") by done.
  rewrite (load_field_absent _ _ "url") by done.
  rewrite (load_field_absent _ _ "correo_electronico") by done.
  rewrite (load_field_absent _ _ "edad") by done.
  rewrite (load_field_absent _ _ "apellido") by done.
  rewrite (load_field_absent _ _ "nombre") by done.
  unfold Schema.load_field. rewrite lookup_singleton_eq.
  destruct (fields.deserialize PersonaSchema.categoria (Some v)) as [[c|]|e];
    simpl; rewrite (right_id_L ∅ (∪)).
  - by rewrite decide_True.
  - by rewrite decide_True.
  - rewrite decide_False; [done|]. apply insert_non_empty.
Qed.

Lemma categoria_deserialize v c :
  fields.deserialize PersonaSchema.categoria (Some v) = Returns (Some c) →
  v = JStr c ∧ c ∈ ["A"; "B"; "C"; "D"; "E"; "F"].
Proof.
  unfold fields.deserialize. destruct v as [| | | |s| |]; cbn; try done.
  unfold validate.And, validate.OneOf. cbn.
  case_decide; [|done]. by intros [= ->].
Qed.

Lemma categoria_deserialize_choice c :
  c ∈ ["A"; "B"; "C"; "D"; "E"; "F"] →
  fields.deserialize PersonaSchema.categoria (Some (JStr c))
    = Returns (Some c).
Proof.
  intros Hc. unfold fields.deserialize. cbn.
  unfold validate.And, validate.OneOf. cbn. by rewrite decide_True.
Qed.

Lemma changed_same {A} `{EqDecision A} (get : Persona.t → A) old new :
  get new = get old → db.changed get old new = false.
Proof.
  intros Hg. unfold db.changed. apply bool_decide_eq_false_2.
  intros Hx. by apply Hx.
Qed.

Lemma refused_choice c :
  c ∈ ["A"; "B"; "C"; "D"; "E"; "F"] → db.refused (Some c) = false.
Proof.
  intros Hc. unfold db.refused. simpl.
  repeat (apply elem_of_cons in Hc as [->|Hc];
          [apply refuses_plain; [simpl; lia|done]|]).
  by apply elem_of_nil in Hc.
Qed.

(** Committing a change of [categoria] to one of the choices writes
    the row, or nothing when the value was already there. *)
Lemma commit_dirty_categoria id p c w :
  c ∈ ["A"; "B"; "C"; "D"; "E"; "F"] →
  personas w !! id = Some p →
  ∃ w', db.commit_dirty id p (Persona.set_categoria (Some c) p) w
          = (Returns (Persona.set_categoria (Some c) p), w')
        ∧ personas w' = <[id := Persona.set_categoria (Some c) p]> (personas w)
        ∧ today w' = today w ∧ serial w' = serial w.
Proof.
  intros Hc Hid. unfold db.commit_dirty. case_bool_decide as Hsame.
  - exists w. rewrite Hsame. by rewrite insert_id.
  - rewrite (changed_same Persona.nombre), (changed_same Persona.apellido),
      (changed_same Persona.correo_electronico), (changed_same Persona.url)
      by done.
    cbn [Persona.categoria Persona.set_categoria].
    rewrite (refused_choice c Hc), andb_false_r. cbn [andb orb].
    by eexists.
Qed.

Lemma update_person_loaded id p request_json data w :
  personas w !! id = Some p →
  Schema.load schema request_json true = Returns data →
  person_bp today_at_import (PUT id request_json) w =
    match db.commit_dirty id p (Persona.update p data) w with
    | (Returns q, w') => ((Object (dump q), HTTPStatus.OK), w')
    | (Raises NotFound, w') => (page_not_found, w')
    | (Raises _, w') => (internal_server_error, w')
    end.
Proof.
  intros Hid Hl. unfold person_bp, respond, update_person. rewrite Hl.
  unfold mbind, view_bind, db.get_or_404. rewrite Hid.
  by destruct (db.commit_dirty _ _ _ _) as [[q|[]] w'].
Qed.

(** C5: an update whose input holds the key [categoria] alone leaves
    under the id a row that differs from the row before in [categoria]
    at most; every other row, the date and the sequence are as before.
    When the value is one of the six choices, the row holds it and is
    what the response, with status 200, shows. *)
Theorem update_person_categoria_only id p members v w :
  personas w !! id = Some p →
  dict_of members = {["categoria" := v]} →
  let r := person_bp today_at_import (PUT id (JObj members)) w in
  ∃ p',
    personas r.2 !! id = Some p'
    ∧ p' = Persona.set_categoria (Persona.categoria p') p
    ∧ (∀ j, j ≠ id → personas r.2 !! j = personas w !! j)
    ∧ today r.2 = today w ∧ serial r.2 = serial w
    ∧ (∀ c, v = JStr c → c ∈ ["A"; "B"; "C"; "D"; "E"; "F"] →
            Persona.categoria p' = Some c
            ∧ r.1 = (Object (dump p'), HTTPStatus.OK)).
Proof.
  intros Hid Hd r.
  assert (p = Persona.set_categoria (Persona.categoria p) p) as Hp
    by by destruct p.
  pose proof (load_categoria_only members v Hd) as Hl.
  destruct (fields.deserialize PersonaSchema.categoria (Some v))
    as [[c|]|e] eqn:Hv.
  - apply categoria_deserialize in Hv as [-> Hc].
    destruct (commit_dirty_categoria id p c w Hc Hid)
      as (w' & Hcommit & Htable & Htoday & Hserial).
    assert (r = ((Object (dump (Persona.set_categoria (Some c) p)),
                  HTTPStatus.OK), w')) as ->.
    { unfold r. rewrite (update_person_loaded id p _ _ w Hid Hl).
      unfold Persona.update. rewrite map_fold_singleton.
      cbn [Persona.setattr String.eqb Ascii.eqb Bool.eqb].
      by rewrite Hcommit. }
    exists (Persona.set_categoria (Some c) p). cbn [fst snd].
    rewrite Htable. split; [apply lookup_insert_eq|].
    split; [done|]. split; [intros j Hj; by apply lookup_insert_ne|].
    split; [done|]. split; [done|]. by intros c' [= <-] _.
  - exists p. unfold r.
    rewrite (update_person_loaded id p _ _ w Hid Hl).
    unfold Persona.update. rewrite map_fold_empty.
    unfold db.commit_dirty. rewrite bool_decide_eq_true_2 by done.
    cbn [fst snd]. do 5 (split; [done|]).
    intros c -> Hc. by rewrite categoria_deserialize_choice in Hv.
  - exists p. unfold r. rewrite (update_person_raises _ _ _ _ Hl).
    cbn [fst snd]. do 5 (split; [done|]).
    intros c -> Hc. by rewrite categoria_deserialize_choice in Hv.
Qed.

(** *** Listing with a filter *)

Lemma keywords_subset args k v : (k, v) ∈ db.keywords args → (k, v) ∈ args.
Proof.
  induction args as [|[k0 v0] args IH]; simpl; [done|].
  intros [->|Hin]%elem_of_cons; [left|right].
  apply IH. by apply list_elem_of_filter in Hin as [_ Hin].
Qed.

Lemma keywords_keys args k : k ∈ args.*1 → k ∈ (db.keywords args).*1.
Proof.
  induction args as [|[k0 v0] args IH]; simpl; [done|].
  intros [->|Hin]%elem_of_cons; [left|].
  destruct (decide (k = k0)) as [->|Hne]; [left|right].
  apply IH, list_elem_of_fmap in Hin as ([k' v'] & -> & Hin).
  apply list_elem_of_fmap. exists (k', v'). split; [done|].
  by apply list_elem_of_filter.
Qed.

Lemma filter_all {A} (P : A → Prop) `{∀ x, Decision (P x)} (l : list A) :
  Forall P l → filter P l = l.
Proof.
  induction 1 as [|x l Hx _ IH]; [done|].
  by rewrite filter_cons_True, IH.
Qed.

(** A mapping, with each key once, is passed on as it is. *)
Lemma keywords_NoDup args : NoDup args.*1 → db.keywords args = args.
Proof.
  induction args as [|[k0 v0] args IH]; simpl; [done|].
  intros [Hk Hnd]%NoDup_cons. rewrite (IH Hnd). f_equal.
  apply filter_all, Forall_forall. intros [k v] Hin Heq.
  simpl in Heq. subst. apply Hk, list_elem_of_fmap. by exists (k0, v).
Qed.

Lemma rows_spec w p : p ∈ rows w ↔ ∃ id, personas w !! id = Some p.
Proof.
  unfold rows. rewrite (scan_rows (personas w)), list_elem_of_fmap. split.
  - intros ([id q] & -> & Hin). exists id. by apply elem_of_map_to_list.
  - intros [id Hid]. exists (id, p). split; [done|].
    by apply elem_of_map_to_list.
Qed.

Lemma equals_spec {A} `{EqDecision A} (l : literal A) :
  l ≠ Rejected →
  ∃ test, db.equals l = Returns test
          ∧ ∀ o, test o = true ↔ ∃ a, l = Denotes a ∧ o = Some a.
Proof.
  intros Hl. destruct l as [a| |]; [| |done]; eexists; (split; [done|]).
  - intros o. rewrite bool_decide_eq_true. split.
    + intros ->. by exists a.
    + by intros (a' & [= <-] & ->).
  - intros o. split; [done|]. by intros (a & Ha & _).
Qed.

(** A criterion on a known column tests what [db.satisfies] says. *)
Lemma criterion_spec k v c :
  Persona.property k = Some c → db.readable k v →
  ∃ test, db.column_equals c v = Returns test
          ∧ ∀ p, test p = true ↔ db.satisfies p k v.
Proof.
  unfold db.readable, db.satisfies. intros -> Hr.
  destruct c as [get|get|get|get]; simpl.
  - destruct (equals_spec (int_literal v) Hr) as (test & -> & Ht).
    eexists. split; [done|]. intros p. apply Ht.
  - eexists. split; [done|]. intros p. apply bool_decide_eq_true.
  - destruct (equals_spec (date_literal v) Hr) as (test & -> & Ht).
    eexists. split; [done|]. intros p. apply Ht.
  - destruct (equals_spec (bool_literal v) Hr) as (test & -> & Ht).
    eexists. split; [done|]. intros p. apply Ht.
Qed.

Lemma entity_namespace_column k c :
  Persona.property k = Some c → entity_namespace k = Some (Mapped c).
Proof. unfold entity_namespace. by intros ->. Qed.

Lemma entity_namespace_unknown k :
  entity_namespace k = None → Persona.property k = None.
Proof. unfold entity_namespace. by destruct (Persona.property k). Qed.

(** No keyword that names a column collides with the method's own
    parameter. *)
Lemma filter_by_clauses kw :
  (∀ k v, (k, v) ∈ kw → is_Some (Persona.property k)) →
  db.filter_by kw = db.clauses kw.
Proof.
  intros Hkw. unfold db.filter_by. case_bool_decide as Hself; [|done].
  apply list_elem_of_fmap in Hself as ([k v] & Hk & Hin). simpl in Hk.
  subst k. by destruct (Hkw _ _ Hin) as [c Hc].
Qed.

Lemma query_spec kw :
  (∀ k v, (k, v) ∈ kw → is_Some (Persona.property k) ∧ db.readable k v) →
  ∃ criteria test,
    db.clauses kw = Returns criteria
    ∧ db.where_clause criteria = Returns test
    ∧ ∀ p, test p = true ↔ ∀ k v, (k, v) ∈ kw → db.satisfies p k v.
Proof.
  induction kw as [|[k v] kw IH]; intros Hkw.
  - exists [], (λ _, true). split; [done|]. split; [done|].
    intros p. split; [|done]. intros _ k v Hin. by apply elem_of_nil in Hin.
  - destruct IH as (criteria & tests & Hf & Hw & Ht).
    { intros k' v' Hin. apply Hkw. by right. }
    destruct (Hkw k v) as [[c Hc] Hr]; [left|].
    destruct (criterion_spec k v c Hc Hr) as (test & Hcrit & Htest).
    exists ((Mapped c, v) :: criteria), (λ p, test p && tests p).
    split; [simpl; by rewrite (entity_namespace_column k c Hc), Hf|].
    split; [simpl; by rewrite Hcrit, Hw|].
    intros p. rewrite andb_true_iff, Htest, Ht. split.
    + intros [Hhead Htail] k' v' [[= -> ->]|Hin]%elem_of_cons; auto.
    + intros Hall. split; [apply Hall; left|].
      intros k' v' Hin. apply Hall. by right.
Qed.

(** The keywords are the first values of the arguments. *)
Lemma keywords_first_value args k v :
  (k, v) ∈ db.keywords args ↔ first_value args k v.
Proof.
  unfold first_value. induction args as [|[k0 v0] args IH]; simpl.
  - split; [by intros ?%elem_of_nil|]. intros (l1 & l2 & Heq & _).
    by destruct l1.
  - rewrite elem_of_cons, list_elem_of_filter, IH. simpl. split.
    + intros [[= -> ->]|[Hne (l1 & l2 & -> & Hk)]].
      * exists [], args. split; [done|]. apply not_elem_of_nil.
      * exists ((k0, v0) :: l1), l2. split; [done|].
        simpl. by apply not_elem_of_cons.
    + intros (l1 & l2 & Heq & Hk). destruct l1 as [|[k1 v1] l1].
      * left. simpl in Heq. by injection Heq as -> ->.
      * right. simpl in Heq. injection Heq as -> -> ->.
        simpl in Hk. apply not_elem_of_cons in Hk as [Hne Hk].
        split; [done|]. by exists l1, l2.
Qed.

Lemma filter_true {A} (l : list A) : List.filter (λ _, true) l = l.
Proof. induction l as [|x l IH]; simpl; [done|]. by rewrite IH. Qed.

(** Some key of the arguments that is no attribute of the class is the
    first such. *)
Lemma first_unknown (args : list (string * string)) k v :
  (k, v) ∈ args → entity_namespace k = None →
  ∃ l1 k' v' l2,
    args = (l1 ++ (k', v') :: l2)%list
    ∧ (∀ j, j ∈ l1.*1 → is_Some (entity_namespace j))
    ∧ entity_namespace k' = None.
Proof.
  induction args as [|[k0 v0] args IH]; intros Hin Hk.
  - by apply elem_of_nil in Hin.
  - destruct (entity_namespace k0) as [a|] eqn:Hk0.
    + apply elem_of_cons in Hin as [[= -> ->]|Hin]; [congruence|].
      destruct (IH Hin Hk) as (l1 & k' & v' & l2 & -> & Hl1 & Hk').
      exists ((k0, v0) :: l1), k', v', l2. split; [done|]. split; [|done].
      intros j Hj. simpl in Hj.
      apply elem_of_cons in Hj as [->|Hj]; [by rewrite Hk0|by apply Hl1].
    + exists [], k0, v0, args. split; [done|]. split; [|done].
      by intros j ?%elem_of_nil.
Qed.

(** Dropping the later values of each key keeps the first key that is
    no attribute of the class first. *)
Lemma keywords_first_unknown (l1 l2 : list (string * string)) k v :
  (∀ j, j ∈ l1.*1 → is_Some (entity_namespace j)) →
  entity_namespace k = None →
  ∃ l1' l2',
    db.keywords (l1 ++ (k, v) :: l2) = (l1' ++ (k, v) :: l2')%list
    ∧ ∀ j, j ∈ l1'.*1 → is_Some (entity_namespace j).
Proof.
  intros Hl1 Hk. induction l1 as [|[k0 v0] l1 IH]; simpl.
  - eexists [], _. split; [done|]. by intros j ?%elem_of_nil.
  - destruct IH as (l1' & l2' & -> & Hl1').
    { intros j Hj. apply Hl1. by right. }
    rewrite filter_app, filter_cons_True.
    2:{ simpl. intros ->. destruct (Hl1 k0) as [a Ha]; [left|]. congruence. }
    eexists ((k0, v0) :: filter _ l1'), _. split; [done|].
    intros j Hj. simpl in Hj.
    apply elem_of_cons in Hj as [->|Hj]; [apply Hl1; left|].
    apply Hl1'. apply list_elem_of_fmap in Hj as (kv & -> & Hj).
    apply list_elem_of_filter in Hj as [_ Hj].
    apply list_elem_of_fmap. by exists kv.
Qed.

Lemma clauses_first_unknown l1 k v l2 :
  (∀ j, j ∈ l1.*1 → is_Some (entity_namespace j)) →
  entity_namespace k = None →
  db.clauses (l1 ++ (k, v) :: l2)
    = Raises (InvalidRequestError (no_property k)).
Proof.
  intros Hl1 Hk. induction l1 as [|[k0 v0] l1 IH]; simpl.
  - by rewrite Hk.
  - destruct (Hl1 k0) as [a ->]; [left|]. rewrite IH; [done|].
    intros j Hj. apply Hl1. by right.
Qed.

Lemma keywords_self args : "self" ∈ (db.keywords args).*1 → "self" ∈ args.*1.
Proof.
  intros ([k v] & -> & Hin)%list_elem_of_fmap.
  apply list_elem_of_fmap. exists (k, v). split; [done|].
  by apply keywords_subset.
Qed.

(** C8: when every key of the filter names a column and the first
    value given for each key is a literal that the backend reads for
    the column, the response is 200 with the rows that pass a test, in
    the order of the table, and the world is as before. A row passes
    when for every key its column holds the first value given for the
    key; the rows are those of the table, each once; with the empty
    filter all of them are in the response. *)
Theorem get_all_persons_filter_of_literals args w :
  (∀ k v, (k, v) ∈ args → is_Some (Persona.property k)) →
  (∀ k v, first_value args k v → db.readable k v) →
  ∃ test,
    person_bp today_at_import (GET_all args) w
      = ((Array (dump <$> List.filter test (rows w)), HTTPStatus.OK), w)
    ∧ (∀ p, test p = true
            ↔ ∀ k v, first_value args k v → db.satisfies p k v)
    ∧ rows w ≡ₚ (map_to_list (personas w)).*2
    ∧ (args = [] → List.filter test (rows w) = rows w).
Proof.
  intros Hargs Hread.
  assert (∀ k v, (k, v) ∈ db.keywords args → is_Some (Persona.property k))
    as Hkw by (intros k v Hin; by apply (Hargs k v), keywords_subset).
  destruct (query_spec (db.keywords args)) as (criteria & test & Hf & Hw & Ht).
  { intros k v Hin. split; [by apply (Hkw k v)|].
    by apply Hread, keywords_first_value. }
  exists test. split; [|split; [|split]].
  - unfold person_bp, respond, get_all_persons, db.all.
    by rewrite (filter_by_clauses _ Hkw), Hf, Hw.
  - intros p. rewrite Ht. split; intros Hall k v Hkv; apply Hall;
      by apply keywords_first_value.
  - apply scan_rows.
  - intros ->. simpl in Hf, Hw. injection Hf as <-. simpl in Hw.
    injection Hw as <-. apply filter_true.
Qed.

Lemma criterion_raises k v c e :
  Persona.property k = Some c → db.column_equals c v = Raises e →
  e = DataError ∧ ¬ db.readable k v.
Proof.
  unfold db.readable. intros -> Hc.
  destruct c as [get|get|get|get]; simpl in Hc; [|done| |].
  - destruct (int_literal v); try done. injection Hc as <-. split; [done|].
    intros Hr. by apply Hr.
  - destruct (date_literal v); try done. injection Hc as <-. split; [done|].
    intros Hr. by apply Hr.
  - destruct (bool_literal v); try done. injection Hc as <-. split; [done|].
    intros Hr. by apply Hr.
Qed.

Lemma criterion_returns k v c test :
  Persona.property k = Some c → db.column_equals c v = Returns test →
  db.readable k v.
Proof.
  unfold db.readable. intros -> Hc.
  destruct c as [get|get|get|get]; simpl in Hc; [|done| |]; intros Hr;
    by rewrite Hr in Hc.
Qed.

Lemma filter_by_known kw :
  (∀ k v, (k, v) ∈ kw → is_Some (Persona.property k)) →
  ∃ criteria, db.clauses kw = Returns criteria.
Proof.
  induction kw as [|[k v] kw IH]; intros Hkw; [by eexists|].
  destruct (Hkw k v) as [c Hc]; [left|].
  destruct IH as [criteria Hf].
  { intros k' v' Hin. apply (Hkw k' v'). by right. }
  simpl. rewrite (entity_namespace_column k c Hc), Hf. by eexists.
Qed.

(** A literal the backend refuses makes the statement fail with an
    error that no handler catches. *)
Lemma query_rejected kw :
  (∀ k v, (k, v) ∈ kw → is_Some (Persona.property k)) →
  (∃ k v, (k, v) ∈ kw ∧ ¬ db.readable k v) →
  ∃ criteria, db.clauses kw = Returns criteria
              ∧ db.where_clause criteria = Raises DataError.
Proof.
  induction kw as [|[k v] kw IH]; intros Hkw (k1 & v1 & Hin & Hr).
  - by apply elem_of_nil in Hin.
  - destruct (Hkw k v) as [c Hc]; [left|]. simpl.
    rewrite (entity_namespace_column k c Hc).
    destruct (db.column_equals c v) as [test|e] eqn:Hcrit.
    + destruct IH as (criteria & -> & Hw).
      { intros k' v' Hin'. apply (Hkw k' v'). by right. }
      { exists k1, v1. split; [|done].
        apply elem_of_cons in Hin as [[= -> ->]|Hin]; [|done].
        destruct Hr. by eapply criterion_returns. }
      eexists. split; [done|]. simpl. by rewrite Hcrit, Hw.
    + destruct (criterion_raises k v c e Hc Hcrit) as [-> _].
      destruct (filter_by_known kw) as [criteria ->].
      { intros k' v' Hin'. apply (Hkw k' v'). by right. }
      eexists. split; [done|]. simpl. by rewrite Hcrit.
Qed.

(** X23: a listing whose keys all name columns but where the backend
    refuses the text given for a column that is not a string column is
    answered with 500: only [InvalidRequestError] is caught. The world
    is as before. *)
Lemma get_all_persons_rejected_literal args w :
  (∀ k v, (k, v) ∈ args → is_Some (Persona.property k)) →
  (∃ k v, (k, v) ∈ db.keywords args ∧ ¬ db.readable k v) →
  person_bp today_at_import (GET_all args) w = (internal_server_error, w).
Proof.
  intros Hargs Hr.
  assert (∀ k v, (k, v) ∈ db.keywords args → is_Some (Persona.property k))
    as Hkw by (intros k v Hin; by apply (Hargs k v), keywords_subset).
  destruct (query_rejected (db.keywords args)) as (criteria & Hf & Hw);
    [done|done|].
  unfold person_bp, respond, get_all_persons, db.all.
  by rewrite (filter_by_clauses _ Hkw), Hf, Hw.
Qed.

(** C9: when a key of the filter is no attribute of the model class,
    neither a column nor another attribute, and no key is [self], the
    response is a body with an error message only, with status 200:
    the message that the exception has for the first such key of the
    request. No rows are in it, and the world is as before. *)
Theorem get_all_persons_unknown_attribute
    (args : list (string * string)) k v w :
  (k, v) ∈ args → entity_namespace k = None → "self" ∉ args.*1 →
  ∃ l1 k' v' l2,
    args = (l1 ++ (k', v') :: l2)%list
    ∧ (∀ j, j ∈ l1.*1 → is_Some (entity_namespace j))
    ∧ entity_namespace k' = None
    ∧ person_bp today_at_import (GET_all args) w
        = ((Object [("message", JStr (no_property k'))],
            HTTPStatus.OK), w).
Proof.
  intros Hin Hk Hself.
  destruct (first_unknown args k v Hin Hk) as (l1 & k' & v' & l2 & -> & Hl1 & Hk').
  exists l1, k', v', l2. do 3 (split; [done|]).
  destruct (keywords_first_unknown l1 l2 k' v' Hl1 Hk') as (l1' & l2' & Hkw & Hl1').
  unfold person_bp, respond, get_all_persons, db.filter_by.
  rewrite bool_decide_eq_false_2 by (intros Hs; by apply Hself, keywords_self).
  by rewrite Hkw, (clauses_first_unknown l1' k' v' l2' Hl1' Hk').
Qed.

(** *** The date of the import *)

(** X24: what [fecha_nacimiento] is compared with is the date of the
    import: a date that parses is refused as future exactly when it is
    later than that date; the date of the import itself passes. *)
Lemma fecha_nacimiento_bound members s d :
  dict_of members !! "fecha_nacimiento" = Some (JStr s) →
  s ≠ "" → from_iso_date s = Some d →
  Schema.validate schema (JObj members) false !! "fecha_nacimiento" =
    if date_ltb today_at_import d
    then Some ["La fecha de nacimiento no puede ser futura"]
    else None.
Proof.
  intros Hm Hs Hd.
  rewrite (validate_field _ _ _ fecha_nacimiento_in_load_fields), Hm.
  rewrite (fecha_nacimiento_deserialize s d Hs Hd).
  by destruct (date_ltb today_at_import d).
Qed.

(** X25: no view reads the calendar: on another day the response is
    the same and the table ends up the same. *)
Lemma person_bp_ignores_today r t w :
  person_bp today_at_import r (on_day t w) =
    ((person_bp today_at_import r w).1,
     on_day t (person_bp today_at_import r w).2).
Proof.
  destruct r as [request_json|args|id|id request_json|id];
    unfold person_bp, respond.
  - unfold create_person. destruct (Schema.load _ _ _) as [data|e]; [|done].
    unfold mbind, view_bind, db.add_commit.
    change (db.email_taken (on_day t w)) with (db.email_taken w).
    cbn [personas serial on_day today].
    repeat (match goal with |- context [if ?b then _ else _] => destruct b end;
            try done).
  - unfold get_all_persons.
    destruct (db.filter_by _) as [criteria|[]]; try done.
    unfold db.all. change (rows (on_day t w)) with (rows w).
    by destruct (db.where_clause criteria) as [test|[]].
  - unfold get_person_by_id, mbind, view_bind, db.get_or_404.
    cbn [personas on_day]. by destruct (personas w !! id).
  - unfold update_person. destruct (Schema.load _ _ _) as [data|e]; [|done].
    unfold mbind, view_bind, db.get_or_404. cbn [personas on_day].
    destruct (personas w !! id) as [p|]; [|done].
    unfold db.commit_dirty.
    change (db.email_taken (on_day t w)) with (db.email_taken w).
    cbn [personas serial on_day today].
    repeat (match goal with |- context [if ?b then _ else _] => destruct b end;
            try done).
  - unfold delete_person, mbind, view_bind, db.get_or_404.
    cbn [personas on_day]. by destruct (personas w !! id).
Qed.

(** *** What a loaded dict holds *)

Lemma field_result_value partial data name {A} (f : fields.Field A) v :
  Schema.field_result partial data name (Declared f) = Returns (Some v) →
  ∃ a, v = fields.to_value f a.
Proof.
  unfold Schema.field_result.
  destruct (data !! name), partial; try done;
    destruct (fields.deserialize f _) as [[a|]|]; try done;
    intros [= <-]; by exists a.
Qed.

(** Every entry of a loaded dict is one [Persona.setattr] stores. *)
Lemma load_typed request_json partial data key v :
  Schema.load schema request_json partial = Returns data →
  data !! key = Some v → Persona.settable key v.
Proof.
  intros Hl Hv. apply (Schema_lookup.load_returns _) in Hl as [He ->].
  destruct request_json as [| | | | | |members];
    try (by cbn in Hv; rewrite lookup_empty in Hv).
  destruct (decide (key ∈ (Schema.load_fields schema).*1)) as [Hin|Hn].
  - rewrite load_fields_names in Hin.
    repeat (apply elem_of_cons in Hin as [->|Hin]);
      [ rewrite (Schema_lookup.loaded_lookup _ load_fields_NoDup _ _ _ _
                   nombre_in_load_fields) in Hv
      | rewrite (Schema_lookup.loaded_lookup _ load_fields_NoDup _ _ "apellido"
                   (Declared PersonaSchema.apellido)) in Hv
          by (rewrite load_fields_persona; repeat constructor)
      | rewrite (Schema_lookup.loaded_lookup _ load_fields_NoDup _ _ _ _
                   categoria_in_load_fields) in Hv
      | rewrite (Schema_lookup.loaded_lookup _ load_fields_NoDup _ _ _ _
                   edad_in_load_fields) in Hv
      | rewrite (Schema_lookup.loaded_lookup _ load_fields_NoDup _ _
                   "correo_electronico"
                   (Declared PersonaSchema.correo_electronico)) in Hv
          by (rewrite load_fields_persona; repeat constructor)
      | rewrite (Schema_lookup.loaded_lookup _ load_fields_NoDup _ _ "url"
                   (Declared PersonaSchema.url)) in Hv
          by (rewrite load_fields_persona; repeat constructor)
      | rewrite (Schema_lookup.loaded_lookup _ load_fields_NoDup _ _ _ _
                   fecha_nacimiento_in_load_fields) in Hv
      | by apply elem_of_nil in Hin ];
      (destruct (Schema.field_result _ _ _ _) as [o|] eqn:Hr; [|done]);
      subst o; apply field_result_value in Hr as [a ->]; cbn;
      try done; repeat constructor.
  - by rewrite (Schema_lookup.loaded_lookup_other _ _ _ _ Hn) in Hv.
Qed.

(** *** Setting attributes from a loaded dict *)

(** The loop of [setattr] over the items is the sparse overlay. *)
Lemma update_overlay p data : Persona.update p data = overlay p data.
Proof.
  unfold Persona.update.
  apply (map_fold_weak_ind (λ r m, r = overlay p m)); [by destruct p|].
  intros i x m r Hm ->.
  destruct (decide (i = "nombre")) as [->|H1];
    [|destruct (decide (i = "apellido")) as [->|H2];
    [|destruct (decide (i = "categoria")) as [->|H3];
    [|destruct (decide (i = "edad")) as [->|H4];
    [|destruct (decide (i = "correo_electronico")) as [->|H5];
    [|destruct (decide (i = "url")) as [->|H6];
    [|destruct (decide (i = "fecha_nacimiento")) as [->|H7]]]]]]];
    destruct x; unfold overlay, Persona.setattr;
    rewrite ?(proj2 (String.eqb_neq i _)) by done;
    cbn -[lookup insert];
    rewrite ?lookup_insert_eq, ?lookup_insert_ne, ?Hm by done; done.
Qed.

(** *** What a loaded dict holds, field by field *)

Lemma deserialize_returns {A} (f : fields.Field A) raw a :
  fields.deserialize f (Some raw) = Returns (Some a) →
  raw ≠ JNull ∧ fields._deserialize f raw = Returns a
  ∧ validate.And (fields.validators f) a = [].
Proof.
  unfold fields.deserialize.
  destruct raw; try done;
    (destruct (fields._deserialize f _) as [a'|] eqn:Hd; [|done]);
    (destruct (validate.And _ a') eqn:Hv; [|done]);
    intros [= <-]; by rewrite Hv.
Qed.

Lemma deserialize_some {A} (f : fields.Field A) raw o :
  fields.deserialize f (Some raw) = Returns o → ∃ a, o = Some a.
Proof.
  unfold fields.deserialize.
  destruct raw; try done;
    (destruct (fields._deserialize f _) as [a'|]; [|done]);
    (destruct (validate.And _ a'); [|done]); intros [= <-]; by eexists.
Qed.

Lemma field_result_raw partial data name {A} (f : fields.Field A) v :
  Schema.field_result partial data name (Declared f) = Returns (Some v) →
  ∃ raw a, data !! name = Some raw
           ∧ fields.deserialize f (Some raw) = Returns (Some a)
           ∧ v = fields.to_value f a.
Proof.
  unfold Schema.field_result. destruct (data !! name) as [raw|] eqn:Hraw.
  - assert (match fields.deserialize f (Some raw) with
                 | Returns o' => Returns (fields.to_value f <$> o')
                 | Raises e => Raises e
                 end = Returns (Some v) →
                 ∃ raw0 a, Some raw = Some raw0
                   ∧ fields.deserialize f (Some raw0) = Returns (Some a)
                   ∧ v = fields.to_value f a) as Hcase.
    { destruct (fields.deserialize f (Some raw)) as [[a|]|] eqn:Hd;
        try done. intros [= <-]. by exists raw, a. }
    destruct partial; by apply Hcase.
  - destruct partial; [done|]. unfold fields.deserialize.
    by destruct (fields.required f).
Qed.

Lemma load_returns_object request_json partial data :
  Schema.load schema request_json partial = Returns data →
  ∃ members, request_json = JObj members.
Proof.
  destruct request_json; try done. by eexists.
Qed.

(** An entry of the loaded dict is the value of its field on the raw
    value of the input. *)
Lemma loaded_entry members partial data name {A} (f : fields.Field A) v :
  Schema.load schema (JObj members) partial = Returns data →
  (name, Declared f) ∈ Schema.load_fields schema →
  data !! name = Some v →
  ∃ raw a, dict_of members !! name = Some raw
           ∧ fields.deserialize f (Some raw) = Returns (Some a)
           ∧ v = fields.to_value f a.
Proof.
  intros Hl Hin Hv. apply (Schema_lookup.load_returns _) in Hl as [_ ->].
  rewrite (Schema_lookup.loaded_lookup _ load_fields_NoDup _ _ _ _ Hin) in Hv.
  destruct (Schema.field_result _ _ _ _) as [o|] eqn:Hr; [|done].
  subst o. by apply field_result_raw in Hr.
Qed.

(** A raw value that is there and loads is in the loaded dict. *)
Lemma loaded_present members partial data name {A} (f : fields.Field A) raw :
  Schema.load schema (JObj members) partial = Returns data →
  (name, Declared f) ∈ Schema.load_fields schema →
  dict_of members !! name = Some raw →
  ∃ a, fields.deserialize f (Some raw) = Returns (Some a)
       ∧ data !! name = Some (fields.to_value f a).
Proof.
  intros Hl Hin Hraw.
  apply (Schema_lookup.load_returns _) in Hl as [Hempty ->].
  pose proof (Schema_lookup.validate_lookup _ load_fields_NoDup
                members partial name _ Hin) as Hv.
  rewrite Hempty, lookup_empty in Hv.
  rewrite (Schema_lookup.loaded_lookup _ load_fields_NoDup _ _ _ _ Hin).
  unfold Schema.field_result in *. rewrite Hraw in *.
  assert (∃ a, fields.deserialize f (Some raw) = Returns (Some a)) as [a Ha].
  { destruct partial;
      (destruct (fields.deserialize f (Some raw)) as [o|] eqn:Hd; [|done]);
      apply deserialize_some in Hd as [a ->]; by exists a. }
  exists a. split; [done|]. destruct partial; by rewrite Ha.
Qed.

Lemma apellido_in_load_fields :
  ("apellido", Declared PersonaSchema.apellido) ∈ Schema.load_fields schema.
Proof. rewrite load_fields_persona. repeat constructor. Qed.

Lemma correo_electronico_in_load_fields :
  ("correo_electronico", Declared PersonaSchema.correo_electronico)
    ∈ Schema.load_fields schema.
Proof. rewrite load_fields_persona. repeat constructor. Qed.

Lemma url_in_load_fields :
  ("url", Declared PersonaSchema.url) ∈ Schema.load_fields schema.
Proof. rewrite load_fields_persona. repeat constructor. Qed.

Lemma nombre_returns raw s :
  fields.deserialize PersonaSchema.nombre (Some raw) = Returns (Some s) →
  raw = JStr s
  ∧ re.match_anchored PersonaSchema.nombre_pattern s = true
  ∧ (3 ≤ String.length s)%nat.
Proof.
  destruct raw as [| | | |s'| |]; try done. rewrite nombre_deserialize.
  unfold validate.Regexp, validate.Length.
  destruct (re.match_anchored _ s') eqn:Hm; [|done].
  destruct (Nat.ltb_spec (String.length s') 3); [done|]. by intros [= <-].
Qed.

Lemma edad_returns raw n :
  fields.deserialize PersonaSchema.edad (Some raw) = Returns (Some n) →
  18 ≤ n ≤ 50.
Proof.
  intros (_ & _ & Hv)%deserialize_returns.
  unfold validate.And in Hv. cbn -[Z.ltb validate.Range] in Hv.
  unfold validate.Range in Hv. cbn -[Z.ltb] in Hv.
  destruct (Z.ltb_spec n 18); [done|]. destruct (Z.ltb_spec 50 n); [done|].
  lia.
Qed.

Lemma correo_electronico_returns raw e :
  fields.deserialize PersonaSchema.correo_electronico (Some raw)
    = Returns (Some e) →
  raw = JStr e ∧ email_syntax e = true.
Proof.
  intros (_ & Hd & Hv)%deserialize_returns.
  destruct raw as [| | | |s| |]; try done. injection Hd as ->.
  unfold validate.And in Hv. cbn -[validate.Email] in Hv.
  unfold validate.Email in Hv.
  by destruct (email_syntax e).
Qed.

Lemma url_returns raw u :
  fields.deserialize PersonaSchema.url (Some raw) = Returns (Some u) →
  raw = JStr u ∧ url_syntax u = true.
Proof.
  intros (_ & Hd & Hv)%deserialize_returns.
  destruct raw as [| | | |s| |]; try done. injection Hd as ->.
  unfold validate.And in Hv. cbn -[validate.URL] in Hv.
  unfold validate.URL in Hv.
  by destruct (url_syntax u).
Qed.

Lemma fecha_nacimiento_returns raw d :
  fields.deserialize (PersonaSchema.fecha_nacimiento today_at_import)
    (Some raw) = Returns (Some d) →
  date_leb d today_at_import = true.
Proof.
  intros (_ & _ & Hv)%deserialize_returns.
  unfold validate.And in Hv. cbn -[date_ltb validate.Range] in Hv.
  unfold validate.Range in Hv. cbn -[date_ltb] in Hv.
  unfold date_leb. by destruct (date_ltb today_at_import d).
Qed.

(** Overlaying a loaded dict on a validated row gives a validated row. *)
Lemma overlay_validated request_json partial data p :
  Schema.load schema request_json partial = Returns data →
  validated today_at_import p → validated today_at_import (overlay p data).
Proof.
  intros Hl (Hn & Hc & He & Hm & Hu & Hf).
  destruct (load_returns_object _ _ _ Hl) as [members ->].
  unfold validated, overlay. cbn [Persona.nombre Persona.categoria Persona.edad
    Persona.correo_electronico Persona.url Persona.fecha_nacimiento].
  split; [|split; [|split; [|split; [|split]]]].
  - destruct (data !! "nombre") as [[s| |]|] eqn:Hd; try done.
    destruct (loaded_entry _ _ _ _ _ _ Hl nombre_in_load_fields Hd)
      as (raw & a & _ & Hr & [= ->]).
    intros s' [= <-]. by apply nombre_returns in Hr as (_ & ? & ?).
  - destruct (data !! "categoria") as [[s| |]|] eqn:Hd; try done.
    destruct (loaded_entry _ _ _ _ _ _ Hl categoria_in_load_fields Hd)
      as (raw & a & _ & Hr & [= ->]).
    intros s' [= <-]. by apply categoria_deserialize in Hr as [_ ?].
  - destruct (data !! "edad") as [[|n|]|] eqn:Hd; try done.
    destruct (loaded_entry _ _ _ _ _ _ Hl edad_in_load_fields Hd)
      as (raw & a & _ & Hr & [= ->]).
    intros n' [= <-]. by apply edad_returns in Hr.
  - destruct (data !! "correo_electronico") as [[s| |]|] eqn:Hd; try done.
    destruct (loaded_entry _ _ _ _ _ _ Hl correo_electronico_in_load_fields Hd)
      as (raw & a & _ & Hr & [= ->]).
    intros s' [= <-]. by apply correo_electronico_returns in Hr as [_ ?].
  - destruct (data !! "url") as [[s| |]|] eqn:Hd; try done.
    destruct (loaded_entry _ _ _ _ _ _ Hl url_in_load_fields Hd)
      as (raw & a & _ & Hr & [= ->]).
    intros s' [= <-]. by apply url_returns in Hr as [_ ?].
  - destruct (data !! "fecha_nacimiento") as [[| |d]|] eqn:Hd; try done.
    destruct (loaded_entry _ _ _ _ _ _ Hl fecha_nacimiento_in_load_fields Hd)
      as (raw & a & _ & Hr & [= ->]).
    intros d' [= <-]. by apply fecha_nacimiento_returns in Hr.
Qed.

(** *** What a commit does *)

Lemma email_taken_spec w e :
  db.email_taken w (Some e) = true
  ↔ ∃ k p, personas w !! k = Some p ∧ Persona.correo_electronico p = Some e.
Proof.
  unfold db.email_taken. rewrite andb_true_iff, existsb_exists. split.
  - intros (_ & p & Hin & Hp). apply bool_decide_eq_true in Hp.
    apply list_elem_of_In, rows_spec in Hin as [k Hk]. by exists k, p.
  - intros (k & p & Hk & Hp). split; [by apply bool_decide_eq_true|].
    exists p. split; [|by apply bool_decide_eq_true].
    apply list_elem_of_In, rows_spec. by exists k.
Qed.

Lemma add_commit_returns person w row w' :
  db.add_commit person w = (Returns row, w') →
  row = Persona.set_id (Some (serial w))
          (Persona.set_es_activo
             (Some (default true (Persona.es_activo person))) person)
  ∧ w' = {| today := today w;
            personas := <[serial w := row]> (personas w);
            serial := serial w + 1 |}
  ∧ personas w !! serial w = None
  ∧ db.email_taken w (Persona.correo_electronico person) = false
  ∧ (is_Some (Persona.nombre person) ∧ is_Some (Persona.apellido person)
     ∧ is_Some (Persona.categoria person)
     ∧ is_Some (Persona.correo_electronico person)
     ∧ is_Some (Persona.url person)).
Proof.
  unfold db.add_commit, db.failed_insert.
  destruct (key_fits (serial w)); simpl; [|done].
  case_bool_decide as Hnull; [done|].
  destruct (_ || _ || _ || _ || _); [done|].
  destruct (db.email_taken w _) eqn:Htaken; [done|]. simpl.
  case_bool_decide as Hkey; [done|]. intros [= <- <-].
  split; [done|]. split; [done|].
  split; [by apply eq_None_not_Some|]. split; [done|].
  destruct (Persona.nombre person), (Persona.apellido person),
    (Persona.categoria person), (Persona.correo_electronico person),
    (Persona.url person); try (destruct Hnull; tauto).
  by repeat split.
Qed.

Lemma add_commit_raises person w e w' :
  db.add_commit person w = (Raises e, w') →
  w' = with_serial (after_failed_insert e (serial w)) w ∧ e ≠ NotFound.
Proof.
  unfold db.add_commit, db.failed_insert.
  repeat (match goal with
          | |- context [if ?b then _ else _] => destruct b
          end; [by intros [= <- <-]|]).
  done.
Qed.

Lemma commit_dirty_returns id old new w q w' :
  db.commit_dirty id old new w = (Returns q, w') →
  q = new
  ∧ ((new = old ∧ w' = w)
     ∨ (w' = with_personas (<[id := new]> (personas w)) w
        ∧ (Persona.correo_electronico new = Persona.correo_electronico old
           ∨ db.email_taken w (Persona.correo_electronico new) = false))).
Proof.
  unfold db.commit_dirty. case_bool_decide as Hsame.
  - intros [= <- <-]. split; [done|]. by left.
  - destruct (_ || _ || _ || _ || _); [done|].
    unfold db.changed at 1. case_bool_decide as Hmail; simpl.
    + destruct (db.email_taken w _) eqn:Htaken; [done|].
      intros [= <- <-]. split; [done|]. right. split; [done|]. by right.
    + intros [= <- <-]. split; [done|]. right. split; [done|]. left.
      destruct (decide (Persona.correo_electronico new
                        = Persona.correo_electronico old)); [done|].
      by destruct Hmail.
Qed.

Lemma commit_dirty_raises id old new w e w' :
  db.commit_dirty id old new w = (Raises e, w') → w' = w ∧ e ≠ NotFound.
Proof.
  unfold db.commit_dirty.
  repeat (match goal with
          | |- context [if ?b then _ else _] => destruct b
          end; try by intros [= <- <-]).
Qed.

Lemma create_person_loaded request_json data w :
  Schema.load schema request_json false = Returns data →
  person_bp today_at_import (POST request_json) w =
    match db.add_commit (overlay Persona.blank data) w with
    | (Returns row, w') => ((Object (dump row), HTTPStatus.CREATED), w')
    | (Raises _, w') => (internal_server_error, w')
    end.
Proof.
  intros Hl. unfold person_bp, respond, create_person. rewrite Hl.
  unfold mbind, view_bind, Persona.new. rewrite update_overlay.
  destruct (db.add_commit _ w) as [[row|e] w'] eqn:Hc; [done|].
  apply add_commit_raises in Hc as [_ He]. by destruct e.
Qed.

Lemma update_person_found id p request_json data w :
  personas w !! id = Some p →
  Schema.load schema request_json true = Returns data →
  person_bp today_at_import (PUT id request_json) w =
    match db.commit_dirty id p (overlay p data) w with
    | (Returns q, w') => ((Object (dump q), HTTPStatus.OK), w')
    | (Raises _, w') => (internal_server_error, w)
    end.
Proof.
  intros Hid Hl. rewrite (update_person_loaded id p _ _ w Hid Hl).
  rewrite update_overlay.
  destruct (db.commit_dirty _ _ _ w) as [[q|e] w'] eqn:Hc; [done|].
  apply commit_dirty_raises in Hc as [-> He]. by destruct e.
Qed.

(** *** The effect of a request on the world *)

(** A request leaves the world as it is, or commits one INSERT, one
    UPDATE of the row it names, or one DELETE of the row it names, or
    fails in an INSERT, which can cost a key. *)
Lemma person_bp_effect r w :
  let w' := (person_bp today_at_import r w).2 in
  w' = w
  ∨ (∃ request_json data row,
       r = POST request_json
       ∧ Schema.load schema request_json false = Returns data
       ∧ db.add_commit (overlay Persona.blank data) w = (Returns row, w'))
  ∨ (∃ id request_json data old,
       r = PUT id request_json
       ∧ Schema.load schema request_json true = Returns data
       ∧ personas w !! id = Some old
       ∧ db.commit_dirty id old (overlay old data) w
           = (Returns (overlay old data), w'))
  ∨ (∃ id, r = DELETE id ∧ is_Some (personas w !! id)
           ∧ w' = {| today := today w; personas := delete id (personas w);
                     serial := after_delete (delete id (personas w))
                                 (serial w) |})
  ∨ (∃ request_json e,
       r = POST request_json
       ∧ w' = with_serial (after_failed_insert e (serial w)) w).
Proof.
  destruct r as [request_json|args|id|id request_json|id]; cbn zeta.
  - destruct (Schema.load schema request_json false) as [data|e] eqn:Hl.
    + rewrite (create_person_loaded _ _ w Hl).
      destruct (db.add_commit _ w) as [[row|e] w'] eqn:Hc.
      * right. left. by exists request_json, data, row.
      * do 4 right. exists request_json, e.
        by apply add_commit_raises in Hc as [-> _].
    + left. by rewrite (create_person_raises _ _ w Hl).
  - left. unfold person_bp, respond, get_all_persons, db.all.
    destruct (db.filter_by _) as [criteria|[]]; try done.
    by destruct (db.where_clause criteria) as [test|[]].
  - left. unfold person_bp, respond, get_person_by_id, mbind, view_bind,
      db.get_or_404. by destruct (personas w !! id).
  - destruct (Schema.load schema request_json true) as [data|e] eqn:Hl.
    + destruct (personas w !! id) as [old|] eqn:Hid.
      * rewrite (update_person_found _ _ _ _ w Hid Hl).
        destruct (db.commit_dirty _ _ _ w) as [[q|e] w'] eqn:Hc; [|by left].
        right. right. left. exists id, request_json, data, old.
        by destruct (commit_dirty_returns _ _ _ _ _ _ Hc) as [-> _].
      * left. unfold person_bp, respond, update_person. rewrite Hl.
        unfold mbind, view_bind, db.get_or_404. by rewrite Hid.
    + left. by rewrite (update_person_raises id _ _ w Hl).
  - unfold person_bp, respond, delete_person, mbind, view_bind,
      db.get_or_404, db.delete_commit.
    destruct (personas w !! id) as [p|] eqn:Hid; [|by left].
    right. right. right. left. exists id. by rewrite Hid.
Qed.

Lemma table_ok_with_serial w next :
  table_ok w → serial w ≤ next → table_ok (with_serial next w).
Proof.
  intros [Hkey Hnull Huniq Hser] Hnext. split; [done|done|done|].
  cbn [personas serial with_serial]. intros k Hk.
  specialize (Hser k Hk). lia.
Qed.

(** X1: every request keeps the constraints of the table: each row is
    stored under its own id, the columns that are not nullable hold a
    value, no two rows share an e-mail address, and the sequence stays
    ahead of every key. *)
Theorem person_bp_keeps_table_ok r w :
  table_ok w → table_ok (person_bp today_at_import r w).2.
Proof.
  intros Hok. pose proof Hok as [Hkey Hnull Huniq Hser].
  destruct (person_bp_effect r w)
    as [-> | [(rj & data & row & _ & _ & Hc)
           | [(id & rj & data & old & _ & _ & Hid & Hc)
           | [(id & _ & _ & ->) | (rj & e & _ & ->)]]]]; [done| | | |].
  - apply add_commit_returns in Hc as (Hrow & -> & Hfree & Htaken & Hsome).
    set (person := overlay Persona.blank data) in *.
    assert (Persona.correo_electronico row
            = Persona.correo_electronico person) as Hmail by by rewrite Hrow.
    assert (∀ k p, personas w !! k = Some p →
              Persona.correo_electronico p ≠ Persona.correo_electronico row)
      as Hfresh.
    { intros k p Hk Heq. rewrite Hmail in Heq.
      destruct Hsome as (_ & _ & _ & [e He] & _). rewrite He in *.
      apply not_true_iff_false in Htaken. apply Htaken, email_taken_spec.
      by exists k, p. }
    split; cbn [personas serial].
    + intros k p [[<- <-]|[Hne Hk]]%lookup_insert_Some; [by rewrite Hrow|].
      by eapply Hkey.
    + intros k p [[<- <-]|[Hne Hk]]%lookup_insert_Some; [by rewrite Hrow|].
      by eapply Hnull.
    + intros k1 k2 p1 p2 [[<- <-]|[Hne1 Hk1]]%lookup_insert_Some
        [[<- <-]|[Hne2 Hk2]]%lookup_insert_Some Heq; try done.
      * by destruct (Hfresh k2 p2 Hk2).
      * by destruct (Hfresh k1 p1 Hk1).
      * by eapply Huniq.
    + intros k [p [[<- <-]|[Hne Hk]]%lookup_insert_Some]; [lia|].
      assert (k < serial w) by (apply Hser; by eexists). lia.
  - apply commit_dirty_returns in Hc as [_ [[_ ->]|[-> Hmail]]];
      [by split|].
    set (new := overlay old data) in *.
    assert (Persona.id new = Some id) as Hnewid by by apply (Hkey id old).
    assert (∀ k p, personas w !! k = Some p → k ≠ id →
              Persona.correo_electronico p ≠ Persona.correo_electronico new)
      as Hfresh.
    { intros k p Hk Hne Heq. destruct Hmail as [Hmail|Htaken].
      - apply Hne. apply (Huniq k id p old Hk Hid). by rewrite Heq.
      - destruct (Hnull k p Hk) as (_ & _ & _ & [e He] & _).
        rewrite <- Heq, He in Htaken.
        apply not_true_iff_false in Htaken. apply Htaken, email_taken_spec.
        by exists k, p. }
    split; cbn [personas serial with_personas].
    + intros k p [[<- <-]|[Hne Hk]]%lookup_insert_Some; [done|].
      by eapply Hkey.
    + intros k p [[<- <-]|[Hne Hk]]%lookup_insert_Some; [|by eapply Hnull].
      destruct (Hnull id old Hid) as ([? Hn] & [? Ha] & [? Hc] & [? He] & [? Hu]).
      unfold new, overlay. cbn. rewrite Hn, Ha, Hc, He, Hu.
      repeat split;
        match goal with
        | |- context [data !! ?key] => by destruct (data !! key) as [[]|]
        end.
    + intros k1 k2 p1 p2 [[<- <-]|[Hne1 Hk1]]%lookup_insert_Some
        [[<- <-]|[Hne2 Hk2]]%lookup_insert_Some Heq; try done.
      * by destruct (Hfresh k2 p2 Hk2).
      * by destruct (Hfresh k1 p1 Hk1).
      * by eapply Huniq.
    + intros k [p [[<- <-]|[Hne Hk]]%lookup_insert_Some];
        apply Hser; by eexists.
  - split; cbn [personas serial].
    + intros k p [_ Hk]%lookup_delete_Some. by eapply Hkey.
    + intros k p [_ Hk]%lookup_delete_Some. by eapply Hnull.
    + intros k1 k2 p1 p2 [_ Hk1]%lookup_delete_Some [_ Hk2]%lookup_delete_Some.
      by eapply Huniq.
    + apply after_delete_ahead.
      intros k [p [_ Hk]%lookup_delete_Some]. apply Hser. by eexists.
  - apply table_ok_with_serial; [done|]. apply after_failed_insert_ge.
Qed.

(** X2: every request keeps the rows validated: if each row of the
    table passes the validators of the schema (pattern and length of
    the name, the six categories, the age range, the e-mail and URL
    syntax, the date bound of the import), so does each row after the
    request. *)
Theorem person_bp_keeps_rows_validated r w :
  (∀ k p, personas w !! k = Some p → validated today_at_import p) →
  ∀ k p, personas (person_bp today_at_import r w).2 !! k = Some p →
         validated today_at_import p.
Proof.
  intros Hall.
  destruct (person_bp_effect r w)
    as [-> | [(rj & data & row & _ & Hl & Hc)
           | [(id & rj & data & old & _ & Hl & Hid & Hc)
           | [(id & _ & _ & ->) | (rj & e & _ & ->)]]]]; [done| | | |done].
  - apply add_commit_returns in Hc as (Hrow & -> & _). cbn [personas].
    intros k p [[<- <-]|[Hne Hk]]%lookup_insert_Some; [|by eapply Hall].
    assert (validated today_at_import (overlay Persona.blank data)) as Hv.
    { apply (overlay_validated _ _ _ _ Hl). by repeat split. }
    by rewrite Hrow.
  - apply commit_dirty_returns in Hc as [_ [[_ ->]|[-> _]]]; [done|].
    cbn [personas with_personas]. intros k p [[<- <-]|[Hne Hk]]%lookup_insert_Some; [|by eapply Hall].
    apply (overlay_validated _ _ _ _ Hl). by eapply Hall.
  - cbn [personas].
    intros k p [_ Hk]%lookup_delete_Some. by eapply Hall.
Qed.

(** *** Creating *)

(** X3: when a creation is answered with 201, the body is the dump of
    a new row stored under the next value of the sequence, with that
    value as [id] and [es_activo] true; the key was free, the sequence
    moves on by one, every other row is as before, and reading that id
    next gives the same body with 200. *)
Theorem create_person_then_get request_json w b w' :
  person_bp today_at_import (POST request_json) w
    = ((b, HTTPStatus.CREATED), w') →
  (∃ row, b = Object (dump row)
          ∧ personas w' !! serial w = Some row
          ∧ Persona.id row = Some (serial w)
          ∧ Persona.es_activo row = Some true)
  ∧ personas w !! serial w = None
  ∧ serial w' = serial w + 1
  ∧ (∀ k, k ≠ serial w → personas w' !! k = personas w !! k)
  ∧ person_bp today_at_import (GET (serial w)) w' = ((b, HTTPStatus.OK), w').
Proof.
  intros Hr.
  destruct (Schema.load schema request_json false) as [data|e] eqn:Hl;
    [|by rewrite (create_person_raises _ _ w Hl) in Hr].
  rewrite (create_person_loaded _ _ w Hl) in Hr.
  destruct (db.add_commit _ w) as [[row|e] w1] eqn:Hc; [|done].
  injection Hr as <- <-.
  apply add_commit_returns in Hc as (Hrow & -> & Hfree & _).
  cbn [personas serial].
  assert (<[serial w := row]> (personas w) !! serial w = Some row) as Hget
    by apply lookup_insert_eq.
  split; [|split; [done|split; [done|split]]].
  - exists row. split; [done|]. split; [done|]. by rewrite Hrow.
  - intros k Hk. by apply lookup_insert_ne.
  - unfold person_bp, respond, get_person_by_id, mbind, view_bind,
      db.get_or_404. cbn [personas]. by rewrite Hget.
Qed.

(** X4: a creation, whatever its outcome, leaves every row of the table
    as it was and never moves the sequence back. *)
Theorem create_person_keeps_rows request_json w k p :
  personas w !! k = Some p →
  let w' := (person_bp today_at_import (POST request_json) w).2 in
  personas w' !! k = Some p ∧ serial w ≤ serial w'.
Proof.
  intros Hk.
  destruct (person_bp_effect (POST request_json) w)
    as [-> | [(rj & data & row & _ & _ & Hc)
           | [(id & rj & data & old & Hput & _)
           | [(id & Hdel & _) | (rj & e & _ & ->)]]]];
    [by split| |done|done|].
  - apply add_commit_returns in Hc as (_ & -> & Hfree & _).
    cbn [personas serial]. split; [|lia].
    rewrite lookup_insert_ne; [done|]. by intros <-; rewrite Hfree in Hk.
  - split; [done|]. apply after_failed_insert_ge.
Qed.

Lemma add_commit_taken person w :
  db.email_taken w (Persona.correo_electronico person) = true →
  ∃ e, db.add_commit person w
       = (Raises e, with_serial (after_failed_insert e (serial w)) w).
Proof.
  intros Htaken. unfold db.add_commit, db.failed_insert. rewrite Htaken.
  repeat (match goal with
          | |- context [if ?b then _ else _] => destruct b
          end; try by eexists).
Qed.

(** X5: a creation input that loads but carries the e-mail address of
    a row of the table is answered with 500, the error of the commit
    being handled nowhere; the table and the date are as before, and
    the next key is as before or further on. *)
Theorem create_person_duplicate_email members data e k p w :
  Schema.load schema (JObj members) false = Returns data →
  dict_of members !! "correo_electronico" = Some (JStr e) →
  personas w !! k = Some p → Persona.correo_electronico p = Some e →
  let r := person_bp today_at_import (POST (JObj members)) w in
  r.1 = (Text "Internal Server Error", HTTPStatus.INTERNAL_SERVER_ERROR)
  ∧ personas r.2 = personas w ∧ today r.2 = today w
  ∧ serial w ≤ serial r.2.
Proof.
  intros Hl He Hk Hp. cbn zeta. rewrite (create_person_loaded _ _ w Hl).
  destruct (loaded_present _ _ _ _ _ _ Hl correo_electronico_in_load_fields He)
    as (a & Ha & Hd).
  apply correo_electronico_returns in Ha as [[= <-] _].
  destruct (add_commit_taken (overlay Persona.blank data) w) as [e' ->].
  2:{ do 3 (split; [done|]). apply after_failed_insert_ge. }
  unfold overlay. cbn [Persona.correo_electronico]. rewrite Hd.
  apply email_taken_spec. by exists k, p.
Qed.

(** *** Updating *)

(** X6: when an update of a row is answered with 200, the body loaded,
    and the row now stored under the id, which is what the response
    dumps, is the sparse overlay of the loaded dict on the old row: an
    attribute takes the value supplied for it and keeps its own where
    none is supplied, and [id] and [es_activo] are never touched. *)
Theorem update_person_overlays id old request_json w b w' :
  personas w !! id = Some old →
  person_bp today_at_import (PUT id request_json) w
    = ((b, HTTPStatus.OK), w') →
  ∃ data,
    Schema.load schema request_json true = Returns data
    ∧ personas w' !! id = Some (overlay old data)
    ∧ b = Object (dump (overlay old data))
    ∧ Persona.id (overlay old data) = Persona.id old
    ∧ Persona.es_activo (overlay old data) = Persona.es_activo old.
Proof.
  intros Hid Hr.
  destruct (Schema.load schema request_json true) as [data|e] eqn:Hl;
    [|by rewrite (update_person_raises id _ _ w Hl) in Hr].
  rewrite (update_person_found _ _ _ _ w Hid Hl) in Hr.
  destruct (db.commit_dirty _ _ _ w) as [[q|e] w1] eqn:Hc; [|done].
  injection Hr as <- <-. exists data.
  apply commit_dirty_returns in Hc as [-> [[Hsame ->]|[-> _]]].
  - by rewrite Hsame.
  - cbn [personas with_personas]. by rewrite lookup_insert_eq.
Qed.

(** X7: an update, whatever its outcome, changes no row but the one it
    names, creates and removes none, leaves the sequence alone, and
    keeps the [id] and [es_activo] of the row it names. *)
Theorem update_person_frame id request_json w :
  let w' := (person_bp today_at_import (PUT id request_json) w).2 in
  (∀ k, k ≠ id → personas w' !! k = personas w !! k)
  ∧ (is_Some (personas w' !! id) ↔ is_Some (personas w !! id))
  ∧ serial w' = serial w
  ∧ (∀ p p', personas w !! id = Some p → personas w' !! id = Some p' →
             Persona.id p' = Persona.id p
             ∧ Persona.es_activo p' = Persona.es_activo p).
Proof.
  destruct (person_bp_effect (PUT id request_json) w)
    as [-> | [(rj & data & row & Hpost & _)
           | [(id' & rj & data & old & [= <- <-] & _ & Hid & Hc)
           | [(id' & Hdel & _) | (rj & e & Hpost & _)]]]];
    [|done| |done|done].
  - do 3 (split; [done|]). by intros p p' -> [= ->].
  - apply commit_dirty_returns in Hc as [_ [[_ ->]|[-> _]]].
    + do 3 (split; [done|]). by intros p p' -> [= ->].
    + cbn [personas serial with_personas]. rewrite lookup_insert_eq.
      split; [intros k Hk; by apply lookup_insert_ne|].
      split; [by rewrite Hid|]. split; [done|].
      intros p p' Hp [= <-]. rewrite Hid in Hp. injection Hp as <-.
      by split.
Qed.

(** X8: when an update is answered with 200, reading the id next gives
    the same body with 200: what the update shows is what is stored. *)
Theorem update_person_then_get id request_json w b w' :
  person_bp today_at_import (PUT id request_json) w
    = ((b, HTTPStatus.OK), w') →
  person_bp today_at_import (GET id) w' = ((b, HTTPStatus.OK), w').
Proof.
  intros Hr.
  destruct (Schema.load schema request_json true) as [data|e] eqn:Hl;
    [|by rewrite (update_person_raises id _ _ w Hl) in Hr].
  destruct (personas w !! id) as [old|] eqn:Hid.
  - rewrite (update_person_found _ _ _ _ w Hid Hl) in Hr.
    destruct (db.commit_dirty _ _ _ w) as [[q|e'] w1] eqn:Hc; [|done].
    injection Hr as <- <-.
    assert (personas w1 !! id = Some q) as Hrow.
    { apply commit_dirty_returns in Hc as [-> [[Hsame ->]|[-> _]]];
        [by rewrite Hsame|].
      cbn [personas with_personas]. apply lookup_insert_eq. }
    unfold person_bp, respond, get_person_by_id, mbind, view_bind,
      db.get_or_404. by rewrite Hrow.
  - unfold person_bp, respond, update_person in Hr. rewrite Hl in Hr.
    unfold mbind, view_bind, db.get_or_404 in Hr. by rewrite Hid in Hr.
Qed.

Lemma overlay_overlay p data : overlay (overlay p data) data = overlay p data.
Proof.
  unfold overlay. cbn. f_equal;
    match goal with
    | |- context [data !! ?key] => by destruct (data !! key) as [[]|]
    | _ => done
    end.
Qed.

(** X9: an update is idempotent: sent again at once, the same request
    gets the same response and leaves the world as the first left it. *)
Theorem update_person_idempotent id request_json w :
  let r := person_bp today_at_import (PUT id request_json) w in
  person_bp today_at_import (PUT id request_json) r.2 = r.
Proof.
  cbn zeta.
  destruct (Schema.load schema request_json true) as [data|e] eqn:Hl;
    [|by rewrite !(update_person_raises id _ _ _ Hl)].
  destruct (personas w !! id) as [old|] eqn:Hid.
  - rewrite (update_person_found _ _ _ _ w Hid Hl).
    destruct (db.commit_dirty id old (overlay old data) w) as [[q|e] w1] eqn:Hc.
    + apply commit_dirty_returns in Hc as [-> [[Hsame ->]|[-> _]]];
        cbn [fst snd].
      * rewrite (update_person_found _ _ _ _ w Hid Hl), Hsame.
        unfold db.commit_dirty. by rewrite bool_decide_eq_true_2.
      * rewrite (update_person_found id (overlay old data) _ data);
          [|cbn [personas with_personas]; apply lookup_insert_eq|done].
        rewrite overlay_overlay.
        unfold db.commit_dirty. by rewrite bool_decide_eq_true_2.
    + cbn [fst snd]. rewrite (update_person_found _ _ _ _ w Hid Hl).
      by rewrite Hc.
  - assert (person_bp today_at_import (PUT id request_json) w
            = (page_not_found, w)) as Hnf.
    { unfold person_bp, respond, update_person. rewrite Hl.
      unfold mbind, view_bind, db.get_or_404. by rewrite Hid. }
    by rewrite !Hnf.
Qed.

(** *** Deleting and reading *)

(** X10: a delete, whatever its outcome, leaves the table without
    the id and otherwise as it was, on the same date, and reading the
    id next is answered with 404 and changes nothing. *)
Theorem delete_person_then_get id w :
  let w' := (person_bp today_at_import (DELETE id) w).2 in
  personas w' = delete id (personas w)
  ∧ today w' = today w
  ∧ person_bp today_at_import (GET id) w'
      = ((Object [("message", JStr "Persona no encontrada")],
          HTTPStatus.NOT_FOUND), w').
Proof.
  cbn zeta.
  assert (personas (person_bp today_at_import (DELETE id) w).2
          = delete id (personas w)
          ∧ today (person_bp today_at_import (DELETE id) w).2 = today w)
    as [Ht Hs].
  { unfold person_bp, respond, delete_person, mbind, view_bind,
      db.get_or_404, db.delete_commit.
    destruct (personas w !! id) as [p|] eqn:Hid; [done|].
    cbn [fst snd]. by rewrite delete_id. }
  split; [done|]. split; [done|].
  unfold person_bp at 1, respond, get_person_by_id, mbind, view_bind,
    db.get_or_404. by rewrite Ht, lookup_delete_eq.
Qed.

(** X11: reading changes nothing: a read by id and a listing, with any
    filter and whatever the outcome, leave the world as it was; a read
    by id is answered with the dump of the row stored under the id and
    200, or with 404 when there is none. *)
Theorem reads_change_nothing id args w :
  (person_bp today_at_import (GET_all args) w).2 = w
  ∧ person_bp today_at_import (GET id) w =
      (match personas w !! id with
       | Some p => (Object (dump p), HTTPStatus.OK)
       | None =>
           (Object [("message", JStr "Persona no encontrada")],
            HTTPStatus.NOT_FOUND)
       end, w).
Proof.
  split.
  - unfold person_bp, respond, get_all_persons, db.all.
    destruct (db.filter_by _) as [criteria|[]]; try done.
    by destruct (db.where_clause criteria) as [test|[]].
  - unfold person_bp, respond, get_person_by_id, mbind, view_bind,
      db.get_or_404. by destruct (personas w !! id).
Qed.

(** *** More of what the schema refuses and accepts *)

Lemma validate_unknown members partial key v :
  key ∉ (Schema.load_fields schema).*1 →
  dict_of members !! key = Some v →
  Schema.validate schema (JObj members) partial !! key
    = Some ["Unknown field."].
Proof.
  intros Hn Hv. unfold Schema.validate, Schema.deserialize_all.
  pose proof (Schema_facts.foldl_other partial (dict_of members)
                (Schema.load_fields schema) (∅, ∅) key Hn) as [_ He].
  destruct (foldl _ _ _) as [valid errors]. simpl in *.
  rewrite lookup_union_r by (by rewrite He, lookup_empty).
  unfold Schema.unknown_fields. rewrite lookup_fmap.
  by rewrite (proj2 (map_lookup_filter_Some _ _ key v)).
Qed.

Lemma load_invalid request_json partial key e :
  Schema.validate schema request_json partial !! key = Some e →
  Schema.load schema request_json partial
    = Raises (Schema.validate schema request_json partial).
Proof.
  intros He. rewrite Schema_lookup.load_validate.
  case_decide as Hempty; [|done]. by rewrite Hempty, lookup_empty in He.
Qed.

(** X12: a key of the input that is none of the seven loadable fields
    is refused under its own name as an unknown field, on creation and
    on update alike; so [id], which is dump-only, and [es_activo], which
    has no field, cannot be supplied: the response is 400 and the world
    is as before. *)
Theorem unknown_field_is_refused members key v id w :
  key ∉ ["nombre"; "apellido"; "categoria"; "edad"; "correo_electronico";
         "url"; "fecha_nacimiento"] →
  dict_of members !! key = Some v →
  ∃ on_create on_update,
    on_create !! key = Some ["Unknown field."]
    ∧ on_update !! key = Some ["Unknown field."]
    ∧ person_bp today_at_import (POST (JObj members)) w
        = ((Messages on_create, HTTPStatus.BAD_REQUEST), w)
    ∧ person_bp today_at_import (PUT id (JObj members)) w
        = ((Messages on_update, HTTPStatus.BAD_REQUEST), w).
Proof.
  intros Hn Hv. rewrite <- load_fields_names in Hn.
  exists (Schema.validate schema (JObj members) false),
    (Schema.validate schema (JObj members) true).
  pose proof (validate_unknown members false key v Hn Hv) as Hc.
  pose proof (validate_unknown members true key v Hn Hv) as Hu.
  split; [done|]. split; [done|]. split.
  - apply create_person_raises. by eapply load_invalid.
  - apply update_person_raises. by eapply load_invalid.
Qed.

(** X13: on creation each of [nombre], [apellido], [categoria],
    [correo_electronico] and [url] that is missing from the input gets
    the message for a missing required field, while a missing [edad] or
    [fecha_nacimiento] gets none; on update no missing field gets any. *)
Theorem missing_fields (members : list (string * json)) name :
  dict_of members !! name = None →
  (name ∈ ["nombre"; "apellido"; "categoria"; "correo_electronico"; "url"] →
   Schema.validate schema (JObj members) false !! name
     = Some ["Missing data for required field."])
  ∧ (name ∈ ["edad"; "fecha_nacimiento"] →
     Schema.validate schema (JObj members) false !! name = None)
  ∧ Schema.validate schema (JObj members) true !! name = None.
Proof.
  intros Hm. split; [|split].
  - intros Hin.
    repeat (apply elem_of_cons in Hin as [->|Hin]);
      [ rewrite (validate_field _ _ _ nombre_in_load_fields)
      | rewrite (validate_field _ _ _ apellido_in_load_fields)
      | rewrite (validate_field _ _ _ categoria_in_load_fields)
      | rewrite (validate_field _ _ _ correo_electronico_in_load_fields)
      | rewrite (validate_field _ _ _ url_in_load_fields)
      | by apply elem_of_nil in Hin ]; by rewrite Hm.
  - intros Hin.
    repeat (apply elem_of_cons in Hin as [->|Hin]);
      [ rewrite (validate_field _ _ _ edad_in_load_fields)
      | rewrite (validate_field _ _ _ fecha_nacimiento_in_load_fields)
      | by apply elem_of_nil in Hin ]; by rewrite Hm.
  - destruct (decide (name ∈ (Schema.load_fields schema).*1)) as [Hin|Hn].
    + apply list_elem_of_fmap in Hin as ([name' f] & -> & Hin).
      rewrite (Schema_lookup.validate_lookup _ load_fields_NoDup _ _ _ _ Hin).
      destruct f as [A f]. unfold Schema.field_result. simpl in Hm.
      by rewrite Hm.
    + unfold Schema.validate, Schema.deserialize_all.
      pose proof (Schema_facts.foldl_other true (dict_of members)
                    (Schema.load_fields schema) (∅, ∅) name Hn) as [_ He].
      destruct (foldl _ _ _) as [valid errors]. simpl in *.
      apply lookup_union_None. split; [by rewrite He, lookup_empty|].
      unfold Schema.unknown_fields. rewrite lookup_fmap.
      by rewrite (proj2 (map_lookup_filter_None _ _ name)); [|left].
Qed.

(** X14: [null] is refused for every loadable field, the optional
    [edad] and [fecha_nacimiento] included, on creation and on update:
    an attribute cannot be cleared through the API. *)
Theorem null_is_refused members partial name {A} (f : fields.Field A) :
  (name, Declared f) ∈ Schema.load_fields schema →
  dict_of members !! name = Some JNull →
  Schema.validate schema (JObj members) partial !! name
    = Some ["Field may not be null."].
Proof.
  intros Hin Hnull.
  rewrite (Schema_lookup.validate_lookup _ load_fields_NoDup _ _ _ _ Hin).
  unfold Schema.field_result. rewrite Hnull. by destruct partial.
Qed.

(** X15: [categoria] passes exactly when it is one of the strings A, B,
    C, D, E, F, upper case only; any other string gets the message that
    lists the six. *)
Theorem categoria_accepted_iff_choice members :
  let errors := Schema.validate schema (JObj members) false in
  (errors !! "categoria" = None
   ↔ ∃ c, dict_of members !! "categoria" = Some (JStr c)
          ∧ c ∈ ["A"; "B"; "C"; "D"; "E"; "F"])
  ∧ (∀ c, dict_of members !! "categoria" = Some (JStr c) →
          c ∉ ["A"; "B"; "C"; "D"; "E"; "F"] →
          errors !! "categoria" = Some ["Must be one of: A, B, C, D, E, F."]).
Proof.
  cbn zeta. rewrite (validate_field _ _ _ categoria_in_load_fields).
  split; [split|].
  - destruct (dict_of members !! "categoria") as [v|]; [|done].
    destruct (fields.deserialize PersonaSchema.categoria (Some v))
      as [[c|]|] eqn:Hd; try done.
    + intros _. apply categoria_deserialize in Hd as [-> Hc]. by exists c.
    + by apply deserialize_some in Hd as [a [=]].
  - intros (c & -> & Hc). by rewrite categoria_deserialize_choice.
  - intros c -> Hc. unfold fields.deserialize. cbn.
    unfold validate.And, validate.OneOf. cbn. by rewrite decide_False.
Qed.

(** X16: [apellido] has no format check: any string, the empty one
    included, passes, and nothing but a string does. *)
Theorem apellido_accepted_iff_string members :
  Schema.validate schema (JObj members) false !! "apellido" = None
  ↔ ∃ s, dict_of members !! "apellido" = Some (JStr s).
Proof.
  rewrite (validate_field _ _ _ apellido_in_load_fields). split.
  - destruct (dict_of members !! "apellido") as [[]|]; try done.
    intros _. by eexists.
  - by intros [s ->].
Qed.

(** X17: a body that is not a JSON object is refused as a whole under
    the key [_schema], on creation and on update, with 400 and the
    world as before. *)
Theorem body_must_be_an_object request_json id w :
  (∀ members, request_json ≠ JObj members) →
  person_bp today_at_import (POST request_json) w
    = ((Messages {["_schema" := ["Invalid input type."]]},
        HTTPStatus.BAD_REQUEST), w)
  ∧ person_bp today_at_import (PUT id request_json) w
    = ((Messages {["_schema" := ["Invalid input type."]]},
        HTTPStatus.BAD_REQUEST), w).
Proof.
  intros Hno.
  assert (∀ partial, Schema.load schema request_json partial
            = Raises {["_schema" := ["Invalid input type."]]}) as Hl.
  { intros partial. destruct request_json as [| | | | | |members];
      try (unfold Schema.load; cbn; rewrite decide_False; [done|];
           apply insert_non_empty).
    by destruct (Hno members). }
  split; [by apply create_person_raises | by apply update_person_raises].
Qed.

(** *** The pattern of the name, in words *)

Lemma append_assoc (s1 s2 s3 : string) : (s1 ++ s2) ++ s3 = s1 ++ (s2 ++ s3).
Proof.
  induction s1 as [|c s1 IH]; [done|].
  change (String c ((s1 ++ s2) ++ s3) = String c (s1 ++ (s2 ++ s3))).
  by rewrite IH.
Qed.

Lemma matches_set_inv lo hi s :
  re.matches (re.Set_ lo hi) s →
  ∃ c, s = String c "" ∧ re.in_range lo hi c = true.
Proof. inversion 1; subst. by eexists. Qed.

Lemma matches_cat_inv r1 r2 s :
  re.matches (re.Cat r1 r2) s →
  ∃ s1 s2, s = s1 ++ s2 ∧ re.matches r1 s1 ∧ re.matches r2 s2.
Proof. inversion 1; subst. by eexists _, _. Qed.

Lemma matches_star_range lo hi s :
  re.matches (re.Star (re.Set_ lo hi)) s ↔ all_in lo hi s = true.
Proof.
  split.
  - intros Hm. remember (re.Star (re.Set_ lo hi)) as r eqn:Hr.
    induction Hm as [| | | | | |r0 s1 s2 H1 _ H2 IH2]; try done.
    injection Hr as ->. apply matches_set_inv in H1 as (c & -> & Hc).
    change (all_in lo hi (String c s2) = true). simpl.
    by rewrite Hc, IH2.
  - induction s as [|c s IH]; simpl; [constructor|].
    intros [Hc Hs]%andb_true_iff.
    change (String c s) with (String c "" ++ s).
    constructor; [by constructor | by apply IH].
Qed.

Lemma matches_word w :
  re.matches PersonaSchema.word w ↔ capitalized w = true.
Proof.
  unfold PersonaSchema.word, re.Plus. split.
  - intros (s1 & s2 & -> & (c & -> & Hc)%matches_set_inv
            & (s3 & s4 & -> & (c' & -> & Hc')%matches_set_inv
               & Hs%matches_star_range)%matches_cat_inv)%matches_cat_inv.
    change (capitalized (String c (String c' s4)) = true).
    unfold capitalized. simpl. unfold PersonaSchema.upper in Hc.
    by rewrite Hc, Hc', Hs.
  - destruct w as [|c [|c' rest]]; try done. unfold capitalized. simpl.
    intros [Hc [Hc' Hs]%andb_true_iff]%andb_true_iff.
    change (String c (String c' rest))
      with (String c "" ++ (String c' "" ++ rest)).
    constructor; [by constructor|].
    constructor; [by constructor | by apply matches_star_range].
Qed.

Lemma matches_spaced_words t :
  re.matches (re.Star (re.Cat (re.Chr " ") PersonaSchema.word)) t
  ↔ ∃ ws, forallb capitalized ws = true ∧ t = spaced ws.
Proof.
  split.
  - intros Hm.
    remember (re.Star (re.Cat (re.Chr " ") PersonaSchema.word)) as r eqn:Hr.
    induction Hm as [| | | | | |r0 s1 s2 H1 _ H2 IH2]; try done.
    + by exists [].
    + injection Hr as ->. destruct (IH2 eq_refl) as (ws & Hws & ->).
      apply matches_cat_inv in H1
        as (a & w & -> & (c & -> & Hc)%matches_set_inv & Hw%matches_word).
      apply in_range_same in Hc as ->.
      exists (w :: ws). split; [simpl; by rewrite Hw|].
      simpl. by rewrite !append_assoc.
  - intros (ws & Hws & ->). induction ws as [|w ws IH]; simpl; [constructor|].
    simpl in Hws. apply andb_true_iff in Hws as [Hw Hws].
    rewrite <- append_assoc. constructor; [|by apply IH].
    constructor; [|by apply matches_word]. constructor.
    unfold re.in_range. by rewrite !N.leb_refl.
Qed.

(** X18: a string passes the pattern of [nombre] exactly when it is one
    or more words, each an upper-case letter followed by one or more
    lower-case letters (A-Z and a-z only), separated by single spaces,
    possibly followed by one newline, which [$] lets through. *)
Theorem nombre_pattern_in_words s :
  re.match_anchored PersonaSchema.nombre_pattern s = true
  ↔ ∃ w ws, forallb capitalized (w :: ws) = true
            ∧ (s = w ++ spaced ws
               ∨ s = (w ++ spaced ws) ++ String re.newline "").
Proof.
  assert (∀ t, re.matches PersonaSchema.nombre_pattern t
               ↔ ∃ w ws, forallb capitalized (w :: ws) = true
                         ∧ t = w ++ spaced ws) as Hwords.
  { intros t. unfold PersonaSchema.nombre_pattern. split.
    - intros (w & t' & -> & Hw%matches_word
              & (ws & Hws & ->)%matches_spaced_words)%matches_cat_inv.
      exists w, ws. split; [simpl; by rewrite Hw|done].
    - intros (w & ws & [Hw Hws]%andb_true_iff & ->).
      constructor; [by apply matches_word|].
      apply matches_spaced_words. by exists ws. }
  rewrite match_anchored_spec. split.
  - intros [(w & ws & Hws & ->)%Hwords | (s' & -> & (w & ws & Hws & ->)%Hwords)];
      exists w, ws; (split; [done|]); [by left | by right].
  - intros (w & ws & Hws & [->| ->]); [left | right; eexists; split; [done|]];
      apply Hwords; by exists w, ws.
Qed.

(** *** A valid creation *)

Lemma string_returns invalid required validators raw s :
  fields.deserialize (fields.string_field invalid required validators)
    (Some raw) = Returns (Some s) →
  raw = JStr s.
Proof.
  intros (_ & Hd & _)%deserialize_returns.
  destruct raw; try done. by injection Hd as ->.
Qed.

(** A required string field of a creation input that loads: the input
    holds a string under its name and the loaded dict holds the same. *)
Lemma loaded_required_string members data name invalid required validators :
  Schema.load schema (JObj members) false = Returns data →
  (name, Declared (fields.string_field invalid required validators))
    ∈ Schema.load_fields schema →
  required = true →
  ∃ s, dict_of members !! name = Some (JStr s)
       ∧ data !! name = Some (VStr s).
Proof.
  intros Hl Hin ->.
  destruct (dict_of members !! name) as [raw|] eqn:Hraw.
  - destruct (loaded_present _ _ _ _ _ _ Hl Hin Hraw) as (s & Hs & Hd).
    apply string_returns in Hs as ->. by exists s.
  - apply (Schema_lookup.load_returns _) in Hl as [Hempty _].
    pose proof (validate_field members name _ Hin) as Hv.
    by rewrite Hempty, lookup_empty, Hraw in Hv.
Qed.

Lemma refused_plain s :
  (String.length s ≤ 120)%nat ∧ all_in " " "~" s = true →
  db.refused (Some s) = false.
Proof. intros [Hlen Hs]. by apply refuses_plain. Qed.

(** X19: in a world whose table satisfies its constraints and whose
    next key is a positive integer of 32 bits, a creation input that
    loads, whose strings are of printable ASCII characters, 120 at
    most, and whose e-mail address no row of the table holds, is
    answered with 201. *)
Theorem create_person_succeeds members data w :
  table_ok w →
  0 < serial w < 2 ^ 31 →
  Schema.load schema (JObj members) false = Returns data →
  (∀ key s, dict_of members !! key = Some (JStr s) →
            (String.length s ≤ 120)%nat ∧ all_in " " "~" s = true) →
  (∀ e k p, dict_of members !! "correo_electronico" = Some (JStr e) →
            personas w !! k = Some p →
            Persona.correo_electronico p ≠ Some e) →
  (person_bp today_at_import (POST (JObj members)) w).1.2
    = HTTPStatus.CREATED.
Proof.
  intros Hok Hkey Hl Hshort Hfresh. rewrite (create_person_loaded _ _ w Hl).
  destruct (loaded_required_string _ _ _ _ _ _ Hl nombre_in_load_fields
              eq_refl) as (n & Hn & Hdn).
  destruct (loaded_required_string _ _ _ _ _ _ Hl apellido_in_load_fields
              eq_refl) as (a & Ha & Hda).
  destruct (loaded_required_string _ _ _ _ _ _ Hl categoria_in_load_fields
              eq_refl) as (c & Hc & Hdc).
  destruct (loaded_required_string _ _ _ _ _ _ Hl
              correo_electronico_in_load_fields eq_refl) as (e & He & Hde).
  destruct (loaded_required_string _ _ _ _ _ _ Hl url_in_load_fields eq_refl)
    as (u & Hu & Hdu).
  unfold db.add_commit, overlay.
  rewrite (key_fits_int _ Hkey). cbn [negb].
  cbn [Persona.nombre Persona.apellido Persona.categoria Persona.blank
       Persona.correo_electronico Persona.url].
  rewrite Hdn, Hda, Hdc, Hde, Hdu.
  rewrite bool_decide_eq_false_2 by (intros [|[|[|[|]]]]; done).
  rewrite !refused_plain by (by eapply Hshort). cbn [orb].
  assert (db.email_taken w (Some e) = false) as ->.
  { apply not_true_iff_false. intros (k & p & Hk & Hp)%email_taken_spec.
    by apply (Hfresh e k p). }
  rewrite bool_decide_eq_false_2; [done|].
  intros Hsome. apply (serial_ahead w Hok) in Hsome. lia.
Qed.

(** *** Edges of the update *)

(** An update input with no keys loads as the empty dict. *)
Lemma load_empty members :
  dict_of members = ∅ → Schema.load schema (JObj members) true = Returns ∅.
Proof.
  intros Hd. unfold Schema.load, Schema.deserialize_all.
  rewrite Hd, load_fields_persona.
  assert (Schema.unknown_fields schema ∅ = ∅) as ->.
  { unfold Schema.unknown_fields. by rewrite map_filter_empty, fmap_empty. }
  cbn [foldl].
  rewrite (load_field_absent _ _ "fecha_nacimiento") by done.
  rewrite (load_field_absent _ _ "url") by done.
  rewrite (load_field_absent _ _ "correo_electronico") by done.
  rewrite (load_field_absent _ _ "edad") by done.
  rewrite (load_field_absent _ _ "categoria") by done.
  rewrite (load_field_absent _ _ "apellido") by done.
  rewrite (load_field_absent _ _ "nombre") by done.
  simpl. rewrite (right_id_L ∅ (∪)). by rewrite decide_True.
Qed.

(** X20: an update with the empty object is not an error: it is
    answered with 200 and the row as it is, and nothing is written. *)
Theorem update_person_empty_input id p members w :
  personas w !! id = Some p →
  dict_of members = ∅ →
  person_bp today_at_import (PUT id (JObj members)) w
    = ((Object (dump p), HTTPStatus.OK), w).
Proof.
  intros Hid Hd.
  rewrite (update_person_found _ _ _ _ w Hid (load_empty _ Hd)).
  assert (overlay p ∅ = p) as -> by by destruct p.
  unfold db.commit_dirty. by rewrite bool_decide_eq_true_2.
Qed.

Lemma commit_dirty_taken id old new w :
  Persona.correo_electronico new ≠ Persona.correo_electronico old →
  db.email_taken w (Persona.correo_electronico new) = true →
  ∃ e, db.commit_dirty id old new w = (Raises e, w).
Proof.
  intros Hne Htaken. unfold db.commit_dirty.
  rewrite bool_decide_eq_false_2 by (by intros ->).
  destruct (_ || _ || _ || _ || _); [by eexists|].
  unfold db.changed. rewrite bool_decide_eq_true_2 by done.
  rewrite Htaken. by eexists.
Qed.

(** X21: an update that loads and gives the row the e-mail address of
    another row is answered with 500, and the world is as before: no
    row ends up with the address of another. *)
Theorem update_person_duplicate_email id old members data e k p w :
  personas w !! id = Some old →
  Schema.load schema (JObj members) true = Returns data →
  dict_of members !! "correo_electronico" = Some (JStr e) →
  personas w !! k = Some p → Persona.correo_electronico p = Some e →
  Persona.correo_electronico old ≠ Some e →
  person_bp today_at_import (PUT id (JObj members)) w
    = ((Text "Internal Server Error", HTTPStatus.INTERNAL_SERVER_ERROR), w).
Proof.
  intros Hid Hl He Hk Hp Hold.
  rewrite (update_person_found _ _ _ _ w Hid Hl).
  destruct (loaded_present _ _ _ _ _ _ Hl correo_electronico_in_load_fields He)
    as (a & Ha & Hd).
  apply correo_electronico_returns in Ha as [[= <-] _].
  assert (Persona.correo_electronico (overlay old data) = Some e) as Hnew.
  { unfold overlay. cbn [Persona.correo_electronico]. by rewrite Hd. }
  destruct (commit_dirty_taken id old (overlay old data) w) as [e' ->];
    [by rewrite Hnew| |done].
  rewrite Hnew. apply email_taken_spec. by exists k, p.
Qed.

(** *** Status codes *)

Lemma clauses_raises kw e :
  db.clauses kw = Raises e → ∃ k, e = InvalidRequestError (no_property k).
Proof.
  induction kw as [|[k v] kw IH]; simpl; [done|].
  destruct (entity_namespace k); [|intros [= <-]; by eexists].
  destruct (db.clauses kw); [done|]. intros [= <-]. by apply IH.
Qed.

Lemma filter_by_raises kw e :
  db.filter_by kw = Raises e →
  e = TypeError ∨ ∃ k, e = InvalidRequestError (no_property k).
Proof.
  unfold db.filter_by. case_bool_decide; [intros [= <-]; by left|].
  intros ?%clauses_raises. by right.
Qed.

Lemma criterion_raises_data a v e :
  db.criterion a v = Raises e → e = DataError.
Proof.
  destruct a as [[get|get|get|get]|value]; simpl; [|done| | |done].
  - by destruct (int_literal v); intros [= <-].
  - by destruct (date_literal v); intros [= <-].
  - by destruct (bool_literal v); intros [= <-].
Qed.

Lemma where_clause_raises criteria e :
  db.where_clause criteria = Raises e → e = DataError.
Proof.
  induction criteria as [|[c v] criteria IH]; simpl; [done|].
  destruct (db.criterion c v) as [test|e'] eqn:Hc.
  - destruct (db.where_clause criteria); [done|]. intros [= <-]. by apply IH.
  - intros [= <-]. by eapply criterion_raises_data.
Qed.

Ltac status_in_list :=
  unfold internal_server_error, page_not_found; cbn [fst snd];
  repeat constructor.

(** X22: the status of a response is one of those its view can give:
    201, 400 or 500 for a creation; 200 or 500 for a listing; 200 or
    404 for a read; 200, 400, 404 or 500 for an update; 204 or 404 for
    a delete. *)
Theorem status_codes r w :
  let status := (person_bp today_at_import r w).1.2 in
  match r with
  | POST _ =>
      status ∈ [HTTPStatus.CREATED; HTTPStatus.BAD_REQUEST;
                HTTPStatus.INTERNAL_SERVER_ERROR]
  | GET_all _ => status ∈ [HTTPStatus.OK; HTTPStatus.INTERNAL_SERVER_ERROR]
  | GET _ => status ∈ [HTTPStatus.OK; HTTPStatus.NOT_FOUND]
  | PUT _ _ =>
      status ∈ [HTTPStatus.OK; HTTPStatus.BAD_REQUEST; HTTPStatus.NOT_FOUND;
                HTTPStatus.INTERNAL_SERVER_ERROR]
  | DELETE _ => status ∈ [HTTPStatus.NO_CONTENT; HTTPStatus.NOT_FOUND]
  end.
Proof.
  destruct r as [request_json|args|id|id request_json|id]; cbn zeta.
  - destruct (Schema.load schema request_json false) as [data|e] eqn:Hl.
    + rewrite (create_person_loaded _ _ w Hl).
      destruct (db.add_commit _ w) as [[row|e] w']; status_in_list.
    + rewrite (create_person_raises _ _ w Hl). status_in_list.
  - unfold person_bp, respond, get_all_persons, db.all.
    destruct (db.filter_by _) as [criteria|e] eqn:Hf.
    + destruct (db.where_clause criteria) as [test|e] eqn:Hw;
        [status_in_list|].
      apply where_clause_raises in Hw as ->. status_in_list.
    + apply filter_by_raises in Hf as [->|[k ->]]; status_in_list.
  - unfold person_bp, respond, get_person_by_id, mbind, view_bind,
      db.get_or_404.
    destruct (personas w !! id); status_in_list.
  - destruct (Schema.load schema request_json true) as [data|e] eqn:Hl.
    + destruct (personas w !! id) as [old|] eqn:Hid.
      * rewrite (update_person_found _ _ _ _ w Hid Hl).
        destruct (db.commit_dirty _ _ _ w) as [[q|e] w']; status_in_list.
      * unfold person_bp, respond, update_person. rewrite Hl.
        unfold mbind, view_bind, db.get_or_404. rewrite Hid.
        status_in_list.
    + rewrite (update_person_raises id _ _ w Hl). status_in_list.
  - unfold person_bp, respond, delete_person, mbind, view_bind,
      db.get_or_404, db.delete_commit.
    destruct (personas w !! id); status_in_list.
Qed.

(** *** The loaded dict and the model *)

(** X26: every entry of a loaded dict is one that [setattr] on the
    model stores: its key is a loadable field and its value has the
    type of that field, a string, an integer under [edad], a date under
    [fecha_nacimiento]; so neither the constructor nor the update loop
    meets a key or a value it has no column for. *)
Theorem loaded_dict_is_settable request_json partial data :
  Schema.load schema request_json partial = Returns data →
  ∀ key v, data !! key = Some v → Persona.settable key v.
Proof. intros Hl key v Hv. by eapply load_typed. Qed.

End persona_schema.

(** * The schema's date bound on a running process *)

(** C1, on the code: a process that imported the module on 1 January
    2024 answers, on 1 June 2024, a creation input with the birth date
    1 March 2024 (a date not later than that day) with status 400 and
    the message that the date cannot be in the future; a process that
    imported the module on 1 June creates the person from the same input
    on the same day and table. The bound is the date of the import, not
    the date of the call. *)
Theorem fecha_nacimiento_bound_is_import_day :
  date_leb (Date 2024 3 1) (today sample.june) = true
  ∧ @app plain.library plain.backend sample.january
      (POST (JObj (sample.born "2024-03-01"))) sample.june
    = ((Messages
          {["fecha_nacimiento" :=
              ["La fecha de nacimiento no puede ser futura"]]},
        HTTPStatus.BAD_REQUEST), sample.june)
  ∧ (@app plain.library plain.backend sample.june
       (POST (JObj (sample.born "2024-03-01"))) sample.june).1.2
    = HTTPStatus.CREATED.
Proof. repeat split; vm_compute; reflexivity. Qed.

(** * The name check at its edges *)

(** [$] accepts one newline at the end of the name. *)
Example nombre_trailing_newline :
  Schema.validate (@persona_schema plain.library (Date 2024 1 1))
    (JObj [("nombre", JStr ("John" ++ String re.newline ""))]) false
    !! "nombre"
  = None.
Proof. vm_compute. reflexivity. Qed.

(** Two letters match the pattern and fail the length check alone. *)
Example nombre_two_letters :
  Schema.validate (@persona_schema plain.library (Date 2024 1 1))
    (JObj [("nombre", JStr "Jo")]) false !! "nombre"
  = Some ["El apellido debe tener al menos 3 caracteres."].
Proof. vm_compute. reflexivity. Qed.

(** A name that fails both checks gets both messages. *)
Example nombre_both_messages :
  Schema.validate (@persona_schema plain.library (Date 2024 1 1))
    (JObj [("nombre", JStr "jo")]) false !! "nombre"
  = Some ["El apellido debe iniciar con mayúscula y contener solo letras.";
          "El apellido debe tener al menos 3 caracteres."].
Proof. vm_compute. reflexivity. Qed.

(** * The theorems at sample inputs *)

Lemma create_person_rejects_invalid_input_witness :
  ∃ errors,
    Schema.load (@persona_schema plain.library (Date 2024 1 1))
      (JObj sample.john) false = Raises errors
    ∧ errors !! "edad" = Some ["Debe ser mayor de edad"]
    ∧ (∀ name' B (g : fields.Field B) msgs',
         (name', Declared g)
           ∈ Schema.load_fields (@persona_schema plain.library (Date 2024 1 1)) →
         fields.deserialize g (dict_of sample.john !! name') = Raises msgs' →
         errors !! name' = Some msgs')
    ∧ @person_bp plain.library plain.backend (Date 2024 1 1)
        (POST (JObj sample.john)) sample.june
      = ((Messages errors, HTTPStatus.BAD_REQUEST), sample.june).
Proof.
  apply (@create_person_rejects_invalid_input plain.library plain.backend
           (Date 2024 1 1) sample.john "edad" Z
           (@PersonaSchema.edad plain.library) ["Debe ser mayor de edad"]
           sample.june).
  - apply edad_in_load_fields.
  - vm_compute. reflexivity.
Defined.

Lemma edad_accepted_iff_in_range_witness :
  Schema.validate (@persona_schema plain.library (Date 2024 1 1))
    (JObj sample.john) false !! "edad"
  = Some ["Debe ser mayor de edad"].
Proof.
  apply (@edad_accepted_iff_in_range plain.library (Date 2024 1 1)
           sample.john 17).
  - vm_compute. reflexivity.
  - lia.
Defined.

Lemma nombre_accepted_iff_pattern_and_length_witness :
  Schema.validate (@persona_schema plain.library (Date 2024 1 1))
    (JObj sample.john) false !! "nombre"
  = Some ["El apellido debe iniciar con mayúscula y contener solo letras."].
Proof.
  apply (@nombre_accepted_iff_pattern_and_length plain.library (Date 2024 1 1)
           sample.john).
  vm_compute. reflexivity.
Defined.

Lemma update_person_categoria_only_witness :
  ∃ p',
    personas
      (@person_bp plain.library plain.backend (Date 2024 1 1)
         (PUT 1 (JObj [("categoria", JStr "B")])) sample.june).2 !! 1
    = Some p'
    ∧ p' = Persona.set_categoria (Persona.categoria p') sample.ana
    ∧ Persona.categoria p' = Some "B".
Proof.
  destruct (@update_person_categoria_only plain.library plain.backend
              (Date 2024 1 1) 1 sample.ana [("categoria", JStr "B")]
              (JStr "B") sample.june)
    as (p' & Hrow & Hsame & _ & _ & _ & Hvalue).
  - vm_compute. reflexivity.
  - vm_compute. reflexivity.
  - exists p'. split; [exact Hrow|]. split; [exact Hsame|].
    apply (Hvalue "B"); [reflexivity|]. repeat constructor.
Defined.

Lemma delete_person_not_found_witness :
  @person_bp plain.library plain.backend (Date 2024 1 1) (DELETE 7) sample.june
  = ((Object [("message", JStr "Persona no encontrada")],
      HTTPStatus.NOT_FOUND), sample.june).
Proof.
  destruct (@delete_person_not_found plain.library plain.backend
              (Date 2024 1 1) 7 sample.june) as [Hmissing _].
  apply Hmissing. vm_compute. reflexivity.
Defined.

Lemma update_person_missing_id_witness :
  @person_bp plain.library plain.backend (Date 2024 1 1)
    (PUT 7 (JObj [("categoria", JStr "B")])) sample.june
  = ((Object [("message", JStr "Persona no encontrada")],
      HTTPStatus.NOT_FOUND), sample.june).
Proof.
  apply (@update_person_missing_id plain.library plain.backend (Date 2024 1 1)
           7 (JObj [("categoria", JStr "B")]) {["categoria" := VStr "B"]}
           sample.june).
  - vm_compute. reflexivity.
  - vm_compute. reflexivity.
Defined.

Lemma update_person_validates_before_lookup_witness :
  @person_bp plain.library plain.backend (Date 2024 1 1)
    (PUT 7 (JObj [("edad", JInt 51)])) sample.june
  = ((Messages {["edad" := ["No debe ser una persona mayor de edad"]]},
      HTTPStatus.BAD_REQUEST), sample.june).
Proof.
  apply (@update_person_validates_before_lookup plain.library plain.backend
           (Date 2024 1 1) 7 (JObj [("edad", JInt 51)])).
  vm_compute. reflexivity.
Defined.

Lemma get_all_persons_filter_of_literals_witness :
  ∃ test,
    @person_bp plain.library plain.backend (Date 2024 1 1)
      (GET_all [("edad", "34")]) sample.june
    = ((Array (dump <$> List.filter test (@rows plain.backend sample.june)),
        HTTPStatus.OK), sample.june)
    ∧ (∀ p, test p = true
            ↔ ∀ k v, first_value [("edad", "34")] k v →
                     @db.satisfies plain.backend p k v)
    ∧ @rows plain.backend sample.june
        ≡ₚ (map_to_list (personas sample.june)).*2
    ∧ ([("edad", "34")] = [] →
       List.filter test (@rows plain.backend sample.june)
         = @rows plain.backend sample.june).
Proof.
  apply (@get_all_persons_filter_of_literals plain.library plain.backend
           (Date 2024 1 1) [("edad", "34")] sample.june).
  - intros k v Hin. apply list_elem_of_singleton in Hin as [= -> ->].
    by eexists.
  - intros k v (l1 & l2 & Heq & _).
    destruct l1 as [|kv [|kv' l1]]; [|discriminate|discriminate].
    injection Heq as <- <- _. vm_compute. discriminate.
Defined.

(** C8, as the claim stands: [fecha_nacimiento] is a column, yet a
    listing filtered by it with a value that is no date is answered
    with 500, not with the rows whose column equals the value. *)
Lemma get_all_persons_known_key_refused :
  is_Some (Persona.property "fecha_nacimiento")
  ∧ @app plain.library plain.backend sample.january
      (GET_all [("fecha_nacimiento", "ayer")]) sample.june
    = ((Text "Internal Server Error", HTTPStatus.INTERNAL_SERVER_ERROR),
       sample.june).
Proof. split; [by eexists|]. vm_compute. reflexivity. Qed.

Lemma get_all_persons_unknown_attribute_witness :
  ∃ l1 k' v' l2,
    [("color", "rojo")] = (l1 ++ (k', v') :: l2)%list
    ∧ (∀ j, j ∈ l1.*1 → is_Some (@entity_namespace plain.backend j))
    ∧ @entity_namespace plain.backend k' = None
    ∧ @person_bp plain.library plain.backend (Date 2024 1 1)
        (GET_all [("color", "rojo")]) sample.june
      = ((Object [("message", JStr (@no_property plain.backend k'))],
          HTTPStatus.OK), sample.june).
Proof.
  apply (@get_all_persons_unknown_attribute plain.library plain.backend
           (Date 2024 1 1) [("color", "rojo")] "color" "rojo" sample.june).
  - repeat constructor.
  - vm_compute. reflexivity.
  - simpl. intros Hin. apply list_elem_of_singleton in Hin. discriminate.
Defined.

(** C9, as the claim stands: [__tablename__] is no field of a person,
    yet a listing filtered by it is answered with the rows of the
    table and no message: the name is an attribute of the class, and
    the comparison with its value is made before the query. *)
Lemma get_all_persons_tablename :
  Persona.property "__tablename__" = None
  ∧ @app plain.library plain.backend sample.january
      (GET_all [("__tablename__", "personas")]) sample.june
    = ((Array (dump <$> [sample.ana; sample.luis]), HTTPStatus.OK),
       sample.june).
Proof. split; [reflexivity|]. vm_compute. reflexivity. Qed.

(** * The sample world *)

Lemma sample_june_rows k p :
  personas sample.june !! k = Some p →
  (k = 1 ∧ p = sample.ana) ∨ (k = 2 ∧ p = sample.luis).
Proof.
  unfold sample.june. cbn [personas].
  intros [[<- <-]|[_ [<- <-]%lookup_singleton_Some]]%lookup_insert_Some;
    [by left | by right].
Qed.

Lemma sample_june_ok : table_ok sample.june.
Proof.
  split.
  - by intros k p [[-> ->]|[-> ->]]%sample_june_rows.
  - intros k p [[-> ->]|[-> ->]]%sample_june_rows; cbn; by repeat split.
  - by intros k1 k2 p1 p2 [[-> ->]|[-> ->]]%sample_june_rows
      [[-> ->]|[-> ->]]%sample_june_rows.
  - intros k [p [[-> ->]|[-> ->]]%sample_june_rows]; by cbn.
Qed.

Lemma sample_june_validated k p :
  personas sample.june !! k = Some p →
  @validated plain.library (Date 2024 1 1) p.
Proof.
  intros [[-> ->]|[-> ->]]%sample_june_rows; unfold validated;
    (split; [|split; [|split; [|split; [|split]]]]);
    intros x Hx; cbn in Hx; try done; injection Hx as <-;
    first [ lia
          | by vm_compute
          | split; [by vm_compute | vm_compute; lia]
          | solve [repeat constructor] ].
Qed.

(** * The further theorems at sample inputs *)

Lemma get_all_persons_rejected_literal_witness :
  @person_bp plain.library plain.backend (Date 2024 1 1)
    (GET_all [("edad", "treinta")]) sample.june
  = ((Text "Internal Server Error", HTTPStatus.INTERNAL_SERVER_ERROR),
     sample.june).
Proof.
  apply (@get_all_persons_rejected_literal plain.library plain.backend
           (Date 2024 1 1) [("edad", "treinta")] sample.june).
  - intros k v Hin. apply list_elem_of_singleton in Hin as [= -> ->].
    by eexists.
  - exists "edad", "treinta". split; [repeat constructor|].
    vm_compute. intros Hr. by apply Hr.
Defined.

Lemma fecha_nacimiento_bound_witness :
  Schema.validate (@persona_schema plain.library (Date 2024 1 1))
    (JObj (sample.born "2024-01-01")) false !! "fecha_nacimiento"
  = None.
Proof.
  apply (@fecha_nacimiento_bound plain.library (Date 2024 1 1)
           (sample.born "2024-01-01") "2024-01-01" (Date 2024 1 1)).
  - vm_compute. reflexivity.
  - discriminate.
  - vm_compute. reflexivity.
Defined.

Lemma loaded_dict_is_settable_witness :
  Persona.settable "categoria" (VStr "B").
Proof.
  apply (@loaded_dict_is_settable plain.library (Date 2024 1 1)
           (JObj [("categoria", JStr "B")]) true {["categoria" := VStr "B"]}).
  - vm_compute. reflexivity.
  - vm_compute. reflexivity.
Defined.

Lemma person_bp_keeps_table_ok_witness :
  table_ok
    (@person_bp plain.library plain.backend (Date 2024 1 1)
       (POST (JObj sample.eva)) sample.june).2.
Proof.
  apply (@person_bp_keeps_table_ok plain.library plain.backend
           (Date 2024 1 1) (POST (JObj sample.eva)) sample.june).
  exact sample_june_ok.
Defined.

Lemma person_bp_keeps_rows_validated_witness :
  @validated plain.library (Date 2024 1 1)
    (Persona.set_categoria (Some "B") sample.ana).
Proof.
  apply (@person_bp_keeps_rows_validated plain.library plain.backend
           (Date 2024 1 1) (PUT 1 (JObj [("categoria", JStr "B")]))
           sample.june sample_june_validated 1).
  vm_compute. reflexivity.
Defined.

Lemma create_person_then_get_witness :
  @person_bp plain.library plain.backend (Date 2024 1 1) (GET 3)
    (@person_bp plain.library plain.backend (Date 2024 1 1)
       (POST (JObj sample.eva)) sample.june).2
  = (((@person_bp plain.library plain.backend (Date 2024 1 1)
         (POST (JObj sample.eva)) sample.june).1.1, HTTPStatus.OK),
     (@person_bp plain.library plain.backend (Date 2024 1 1)
        (POST (JObj sample.eva)) sample.june).2).
Proof.
  apply (@create_person_then_get plain.library plain.backend (Date 2024 1 1)
           (JObj sample.eva) sample.june).
  vm_compute. reflexivity.
Defined.

Lemma create_person_keeps_rows_witness :
  personas
    (@person_bp plain.library plain.backend (Date 2024 1 1)
       (POST (JObj sample.eva)) sample.june).2 !! 1
  = Some sample.ana.
Proof.
  apply (@create_person_keeps_rows plain.library plain.backend
           (Date 2024 1 1) (JObj sample.eva) sample.june 1 sample.ana).
  vm_compute. reflexivity.
Defined.

Lemma create_person_duplicate_email_witness :
  (@person_bp plain.library plain.backend (Date 2024 1 1)
     (POST (JObj sample.ana_again)) sample.june).1
  = (Text "Internal Server Error", HTTPStatus.INTERNAL_SERVER_ERROR)
  ∧ personas (@person_bp plain.library plain.backend (Date 2024 1 1)
                (POST (JObj sample.ana_again)) sample.june).2
    = personas sample.june
  ∧ today (@person_bp plain.library plain.backend (Date 2024 1 1)
             (POST (JObj sample.ana_again)) sample.june).2
    = today sample.june
  ∧ serial sample.june
    ≤ serial (@person_bp plain.library plain.backend (Date 2024 1 1)
                (POST (JObj sample.ana_again)) sample.june).2.
Proof.
  eapply (@create_person_duplicate_email plain.library plain.backend
            (Date 2024 1 1) sample.ana_again _ "ana@x.com" 1 sample.ana).
  - vm_compute. reflexivity.
  - vm_compute. reflexivity.
  - vm_compute. reflexivity.
  - reflexivity.
Defined.

Lemma update_person_overlays_witness :
  ∃ data,
    Schema.load (@persona_schema plain.library (Date 2024 1 1))
      (JObj [("edad", JInt 35)]) true = Returns data
    ∧ personas
        (@person_bp plain.library plain.backend (Date 2024 1 1)
           (PUT 1 (JObj [("edad", JInt 35)])) sample.june).2 !! 1
      = Some (overlay sample.ana data)
    ∧ (@person_bp plain.library plain.backend (Date 2024 1 1)
         (PUT 1 (JObj [("edad", JInt 35)])) sample.june).1.1
      = Object (dump (overlay sample.ana data))
    ∧ Persona.id (overlay sample.ana data) = Persona.id sample.ana
    ∧ Persona.es_activo (overlay sample.ana data)
      = Persona.es_activo sample.ana.
Proof.
  apply (@update_person_overlays plain.library plain.backend (Date 2024 1 1)
           1 sample.ana (JObj [("edad", JInt 35)]) sample.june).
  - vm_compute. reflexivity.
  - vm_compute. reflexivity.
Defined.

Lemma update_person_then_get_witness :
  @person_bp plain.library plain.backend (Date 2024 1 1) (GET 1)
    (@person_bp plain.library plain.backend (Date 2024 1 1)
       (PUT 1 (JObj [("edad", JInt 35)])) sample.june).2
  = (((@person_bp plain.library plain.backend (Date 2024 1 1)
         (PUT 1 (JObj [("edad", JInt 35)])) sample.june).1.1,
      HTTPStatus.OK),
     (@person_bp plain.library plain.backend (Date 2024 1 1)
        (PUT 1 (JObj [("edad", JInt 35)])) sample.june).2).
Proof.
  apply (@update_person_then_get plain.library plain.backend (Date 2024 1 1)
           1 (JObj [("edad", JInt 35)]) sample.june).
  vm_compute. reflexivity.
Defined.

Lemma unknown_field_is_refused_witness :
  ∃ on_create on_update,
    on_create !! "id" = Some ["Unknown field."]
    ∧ on_update !! "id" = Some ["Unknown field."]
    ∧ @person_bp plain.library plain.backend (Date 2024 1 1)
        (POST (JObj (("id", JInt 9) :: sample.eva))) sample.june
      = ((Messages on_create, HTTPStatus.BAD_REQUEST), sample.june)
    ∧ @person_bp plain.library plain.backend (Date 2024 1 1)
        (PUT 1 (JObj (("id", JInt 9) :: sample.eva))) sample.june
      = ((Messages on_update, HTTPStatus.BAD_REQUEST), sample.june).
Proof.
  apply (@unknown_field_is_refused plain.library plain.backend
           (Date 2024 1 1) (("id", JInt 9) :: sample.eva) "id" (JInt 9)).
  - apply (bool_decide_unpack _). vm_compute. exact I.
  - vm_compute. reflexivity.
Defined.

Lemma missing_fields_witness :
  Schema.validate (@persona_schema plain.library (Date 2024 1 1))
    (JObj []) false !! "url"
  = Some ["Missing data for required field."].
Proof.
  apply (@missing_fields plain.library (Date 2024 1 1) [] "url").
  - vm_compute. reflexivity.
  - repeat constructor.
Defined.

Lemma null_is_refused_witness :
  Schema.validate (@persona_schema plain.library (Date 2024 1 1))
    (JObj [("edad", JNull)]) true !! "edad"
  = Some ["Field may not be null."].
Proof.
  apply (@null_is_refused plain.library (Date 2024 1 1) [("edad", JNull)]
           true "edad" Z (@PersonaSchema.edad plain.library)).
  - apply edad_in_load_fields.
  - vm_compute. reflexivity.
Defined.

Lemma body_must_be_an_object_witness :
  @person_bp plain.library plain.backend (Date 2024 1 1)
    (POST (JArr [])) sample.june
  = ((Messages {["_schema" := ["Invalid input type."]]},
      HTTPStatus.BAD_REQUEST), sample.june)
  ∧ @person_bp plain.library plain.backend (Date 2024 1 1)
      (PUT 1 (JArr [])) sample.june
    = ((Messages {["_schema" := ["Invalid input type."]]},
        HTTPStatus.BAD_REQUEST), sample.june).
Proof.
  apply (@body_must_be_an_object plain.library plain.backend (Date 2024 1 1)
           (JArr []) 1 sample.june).
  discriminate.
Defined.

Lemma create_person_succeeds_witness :
  (@person_bp plain.library plain.backend (Date 2024 1 1)
     (POST (JObj sample.eva)) sample.june).1.2
  = HTTPStatus.CREATED.
Proof.
  eapply (@create_person_succeeds plain.library plain.backend (Date 2024 1 1)
            sample.eva _ sample.june sample_june_ok).
  - vm_compute. split; reflexivity.
  - vm_compute. reflexivity.
  - intros key s Hs. unfold sample.eva, sample.born, dict_of in Hs.
    simpl in Hs.
    repeat (apply lookup_insert_Some in Hs as [[_ Hs]|[_ Hs]];
            [injection Hs as <-; split; [vm_compute; lia|reflexivity]|]).
    by rewrite lookup_empty in Hs.
  - intros e k p He [[-> ->]|[-> ->]]%sample_june_rows;
      vm_compute in He; injection He as <-; discriminate.
Defined.

Lemma update_person_empty_input_witness :
  @person_bp plain.library plain.backend (Date 2024 1 1)
    (PUT 2 (JObj [])) sample.june
  = ((Object (dump sample.luis), HTTPStatus.OK), sample.june).
Proof.
  apply (@update_person_empty_input plain.library plain.backend
           (Date 2024 1 1) 2 sample.luis [] sample.june).
  - vm_compute. reflexivity.
  - reflexivity.
Defined.

Lemma update_person_duplicate_email_witness :
  @person_bp plain.library plain.backend (Date 2024 1 1)
    (PUT 2 (JObj [("correo_electronico", JStr "ana@x.com")])) sample.june
  = ((Text "Internal Server Error", HTTPStatus.INTERNAL_SERVER_ERROR),
     sample.june).
Proof.
  eapply (@update_person_duplicate_email plain.library plain.backend
            (Date 2024 1 1) 2 sample.luis
            [("correo_electronico", JStr "ana@x.com")] _ "ana@x.com"
            1 sample.ana).
  - vm_compute. reflexivity.
  - vm_compute. reflexivity.
  - vm_compute. reflexivity.
  - vm_compute. reflexivity.
  - reflexivity.
  - discriminate.
Defined.
